(** * build_powerplants: a shallow embedding of scripts/build_powerplants.py

    The script is a batch pipeline over pandas data frames.  A data frame is
    modelled as the list of its rows, each paired with its index label; a
    column (a pandas Series taken from a frame) is the list of the cells of
    that column, position by position.  The pandas operations the script calls
    are given by their documented behaviour on these lists; the functions of
    the script are then transcribed line by line on top of them.

    Cells that the script treats as possibly missing (Technology, the
    coordinates, the dates, Efficiency, bus, ...) are options, [None] being the
    pandas null (NaN).  Name, Fueltype and Country are read by the script as
    strings with no null handling and are strings here.  Years are integers;
    the other numeric cells are rationals (the script only copies them or
    writes the literal 0.0). *)

From Stdlib Require Import List String Ascii Bool Arith ZArith QArith Lia.
From Stdlib Require Import DecimalString DecimalNat FinFun.
Import ListNotations.

Local Open Scope string_scope.
Local Open Scope list_scope.
Local Close Scope Q_scope.
Local Open Scope nat_scope.

(** ** Rows, frames and columns *)

Record Row : Type := mkRow {
  Name : string;
  Fueltype : string;
  Technology : option string;
  Set_ : option string;
  Country : string;
  Capacity : option Q;
  Efficiency : option Q;
  DateIn : option Z;
  DateOut : option Z;
  lat : option Q;
  lon : option Q;
  bus : option string;
  passthrough : list (string * string)
}.

(** Row index label and row. *)
Definition DataFrame : Type := list (Z * Row).

Definition Series (A : Type) : Type := list A.

Definition index (df : DataFrame) : list Z := map fst df.

Definition rows (df : DataFrame) : list Row := map snd df.

(** [df.col]: the column [col] of [df]. *)
Definition column {A : Type} (col : Row -> A) (df : DataFrame) : Series A :=
  map (fun ir => col (snd ir)) df.

Definition with_Name (v : string) (r : Row) : Row :=
  mkRow v (Fueltype r) (Technology r) (Set_ r) (Country r) (Capacity r)
        (Efficiency r) (DateIn r) (DateOut r) (lat r) (lon r) (bus r)
        (passthrough r).

Definition with_Fueltype (v : string) (r : Row) : Row :=
  mkRow (Name r) v (Technology r) (Set_ r) (Country r) (Capacity r)
        (Efficiency r) (DateIn r) (DateOut r) (lat r) (lon r) (bus r)
        (passthrough r).

Definition with_Technology (v : option string) (r : Row) : Row :=
  mkRow (Name r) (Fueltype r) v (Set_ r) (Country r) (Capacity r)
        (Efficiency r) (DateIn r) (DateOut r) (lat r) (lon r) (bus r)
        (passthrough r).

Definition with_bus (v : option string) (r : Row) : Row :=
  mkRow (Name r) (Fueltype r) (Technology r) (Set_ r) (Country r) (Capacity r)
        (Efficiency r) (DateIn r) (DateOut r) (lat r) (lon r) v
        (passthrough r).

(** [df.assign(col=values)] and [df.col = values]: the cells of one column
    are replaced position by position. *)
Fixpoint assign {A : Type} (set : A -> Row -> Row) (df : DataFrame)
    (values : Series A) : DataFrame :=
  match df, values with
  | (i, r) :: df', v :: values' => (i, set v r) :: assign set df' values'
  | _, _ => []
  end.

(** [df[col] = scalar]. *)
Definition assign_scalar {A : Type} (set : A -> Row -> Row) (v : A)
    (df : DataFrame) : DataFrame :=
  map (fun ir => (fst ir, set v (snd ir))) df.

(** Boolean indexing [df[keep]] with a boolean column taken from [df]. *)
Fixpoint select (df : DataFrame) (keep : Series bool) : DataFrame :=
  match df, keep with
  | ir :: df', b :: keep' =>
      if b then ir :: select df' keep' else select df' keep'
  | _, _ => []
  end.

(** ** Column operations of pandas used by the script *)

Fixpoint lookup (k : string) (mapping : list (string * string)) : option string :=
  match mapping with
  | [] => None
  | (k', v) :: rest => if String.eqb k k' then Some v else lookup k rest
  end.

(** [Series.replace(mapping)]: a cell equal to a key becomes the mapped value,
    every other cell, null included, is kept. *)
Definition replace (mapping : list (string * string))
    (s : Series (option string)) : Series (option string) :=
  map (fun cell =>
         match cell with
         | Some v => match lookup v mapping with
                     | Some v' => Some v'
                     | None => Some v
                     end
         | None => None
         end) s.

(** [Series.fillna(value)]. *)
Definition fillna {A : Type} (value : A) (s : Series (option A)) : Series (option A) :=
  map (fun cell => match cell with Some v => Some v | None => Some value end) s.

(** [self.mask(cond, other)]: where [cond] holds the cell of [other] is taken,
    elsewhere the cell of [self]. *)
Fixpoint mask {A : Type} (self : Series A) (cond : Series bool)
    (other : Series A) : Series A :=
  match self, cond, other with
  | x :: self', c :: cond', y :: other' =>
      (if c then y else x) :: mask self' cond' other'
  | _, _, _ => []
  end.

(** [self.mask(cond, scalar)]. *)
Fixpoint mask_scalar {A : Type} (self : Series A) (cond : Series bool)
    (other : A) : Series A :=
  match self, cond with
  | x :: self', c :: cond' =>
      (if c then other else x) :: mask_scalar self' cond' other
  | _, _ => []
  end.

(** [self.where(cond, other)]: the cell of [self] is kept where [cond] holds. *)
Fixpoint where_ {A : Type} (self : Series A) (cond : Series bool)
    (other : Series A) : Series A :=
  match self, cond, other with
  | x :: self', c :: cond', y :: other' =>
      (if c then x else y) :: where_ self' cond' other'
  | _, _, _ => []
  end.

(** [series == value] on a string column and on a nullable string column;
    a null cell compares unequal to every string. *)
Definition eq_str (s : Series string) (v : string) : Series bool :=
  map (fun x => String.eqb x v) s.

Definition opt_eqb (cell : option string) (v : string) : bool :=
  match cell with
  | Some x => String.eqb x v
  | None => false
  end.

Definition eq_opt_str (s : Series (option string)) (v : string) : Series bool :=
  map (fun cell => opt_eqb cell v) s.

(** [a | b] on boolean columns. *)
Fixpoint series_or (a b : Series bool) : Series bool :=
  match a, b with
  | x :: a', y :: b' => (x || y) :: series_or a' b'
  | _, _ => []
  end.

Definition series_not (a : Series bool) : Series bool := map negb a.

(** ** Fuel and technology relabelling *)

Definition replace_natural_gas_technology (df : DataFrame) : Series (option string) :=
  let mapping := [("Steam Turbine", "CCGT"); ("Combustion Engine", "OCGT")] in
  let tech := fillna "CCGT" (replace mapping (column Technology df)) in
  mask (column Technology df) (eq_str (column Fueltype df) "Natural Gas") tech.

Definition replace_natural_gas_fueltype (df : DataFrame) : Series string :=
  mask_scalar (column Fueltype df)
    (series_or (eq_opt_str (column Technology df) "OCGT")
               (eq_opt_str (column Technology df) "CCGT"))
    "Natural Gas".

(** [.assign(Technology=replace_natural_gas_technology)
     .assign(Fueltype=replace_natural_gas_fueltype)] of the main block. *)
Definition canonicalize (df : DataFrame) : DataFrame :=
  let df1 := assign with_Technology df (replace_natural_gas_technology df) in
  assign with_Fueltype df1 (replace_natural_gas_fueltype df1).

(** ** Exceptions, the log and the loaded files *)

Inductive Exception : Type :=
| FileNotFoundError (path : string)
| QueryError (expr : string)
| ValueError (msg : string).

Inductive result (A : Type) : Type :=
| Ok (a : A)
| Raise (e : Exception).

Arguments Ok {A} a.
Arguments Raise {A} e.

(** What a run does besides computing frames: it reads csv files and logs
    warnings. *)
Inductive Event : Type :=
| ReadCsv (path : string)
| Warning (msg : string).

Definition Trace : Type := list Event.

(** A computation threads the trace and may raise. *)
Definition M (A : Type) : Type := Trace -> result A * Trace.

Definition ret {A : Type} (a : A) : M A := fun t => (Ok a, t).

Definition bind {A B : Type} (m : M A) (k : A -> M B) : M B :=
  fun t =>
    match m t with
    | (Ok a, t') => k a t'
    | (Raise e, t') => (Raise e, t')
    end.

Definition lift {A : Type} (r : result A) : M A := fun t => (r, t).

Definition emit (e : Event) : M unit := fun t => (Ok tt, t ++ [e]).

Notation "x <- m ;; k" := (bind m (fun x => k))
  (at level 61, m at next level, right associativity).
Notation "m ;;; k" := (bind m (fun _ => k))
  (at level 61, right associativity).

Definition run {A : Type} (m : M A) : result A * Trace := m [].

(** Values a configuration entry can hold, with Python's truth value. *)
Inductive PyVal : Type :=
| PyNone
| PyBool (b : bool)
| PyInt (z : Z)
| PyStr (s : string).

Definition truthy (v : PyVal) : bool :=
  match v with
  | PyNone => false
  | PyBool b => b
  | PyInt z => negb (Z.eqb z 0)
  | PyStr s => negb (String.eqb s "")
  end.

(** ** pandas: concat, index uniqueness, min and max *)

Fixpoint is_unique (idx : list Z) : bool :=
  match idx with
  | [] => true
  | i :: rest => negb (existsb (Z.eqb i) rest) && is_unique rest
  end.

Definition default_index (n : nat) : list Z := map Z.of_nat (seq 0 n).

(** [pd.concat(objs, ignore_index=.., verify_integrity=..)] along the rows.
    With [ignore_index] the result gets the fresh labels 0..n-1 and the index
    is not looked at; otherwise the labels are kept and [verify_integrity]
    raises when a label occurs twice.  The check is on the labels of the
    concatenated axis only, never on the cells. *)
Definition concat (objs : list DataFrame) (ignore_index verify_integrity : bool)
    : result DataFrame :=
  let all := List.concat objs in
  if ignore_index then Ok (combine (default_index (List.length all)) (rows all))
  else if verify_integrity && negb (is_unique (index all))
       then Raise (ValueError "Indexes have overlapping values")
       else Ok all.

(** [Series.min()] and [Series.max()]: nulls are skipped, and the result is
    null when no cell is left. *)
Definition skipna_fold (f : Z -> Z -> Z) (s : Series (option Z)) : option Z :=
  fold_left (fun acc cell =>
               match cell, acc with
               | Some v, Some m => Some (f m v)
               | Some v, None => Some v
               | None, _ => acc
               end) s None.

Definition series_min : Series (option Z) -> option Z := skipna_fold Z.min.

Definition series_max : Series (option Z) -> option Z := skipna_fold Z.max.

(** [Series.unique()]: the distinct values in order of first appearance. *)
Fixpoint unique_from (seen : list string) (s : Series string) : list string :=
  match s with
  | [] => []
  | x :: s' =>
      if existsb (String.eqb x) seen then unique_from seen s'
      else x :: unique_from (x :: seen) s'
  end.

Definition unique (s : Series string) : list string := unique_from [] s.

(** [value in list] inside a query. *)
Definition isin (v : string) (l : list string) : bool := existsb (String.eqb v) l.

(** [df.query(...)] with the predicate the expression denotes. *)
Definition query_rows (p : Row -> bool) (df : DataFrame) : DataFrame :=
  filter (fun ir => p (snd ir)) df.

(** ** The network's buses *)

Record Bus : Type := mkBus {
  bus_id : string;
  x : Q;
  y : Q;
  country : string;
  substation_lv : bool
}.

(** [n.buses.query("substation_lv")]. *)
Definition substations_of (buses : list Bus) : list Bus := filter substation_lv buses.

Section Script.

(** The files on disk, the meaning of a user-written query expression ([None]
    for an expression pandas rejects) and the bus matcher of
    powerplantmatching are outside the script. *)
Variable fs : string -> option DataFrame.
Variable query_pred : string -> option (Row -> bool).
Variable map_country_bus : DataFrame -> list Bus -> DataFrame.

(** [pd.read_csv(path, dtype={"bus": "str"})].  Of the ways the read can fail
    only the missing file is modelled; a file that exists is taken to parse.
    Statements about the function say what the read gave. *)
Definition read_csv (path : string) : M DataFrame :=
  emit (ReadCsv path) ;;;
  match fs path with
  | Some df => ret df
  | None => lift (Raise (FileNotFoundError path))
  end.

(** [df.query(expr)] for a user-written expression. *)
Definition query (expr : string) (df : DataFrame) : result DataFrame :=
  match query_pred expr with
  | Some p => Ok (query_rows p df)
  | None => Raise (QueryError expr)
  end.

Definition add_custom_powerplants (ppl : DataFrame) (custom_powerplants : string)
    (custom_ppl_query : PyVal) : M DataFrame :=
  if negb (truthy custom_ppl_query) then ret ppl
  else
    add_ppls <- read_csv custom_powerplants ;;
    add_ppls <- match custom_ppl_query with
                | PyStr expr => lift (query expr add_ppls)
                | _ => ret add_ppls
                end ;;
    lift (concat [ppl; add_ppls] true true).

(** The frame built from [itertools.product] merged with
    [substations[["x", "y", "country"]]] on the substation label: an inner
    join, in the order of the left frame. *)
Record Merged : Type := mkMerged {
  substation_index : string;
  m_Fueltype : string;
  m_x : Q;
  m_y : Q;
  m_country : string
}.

Definition merge (left : list (string * string)) (right : list Bus) : list Merged :=
  flat_map (fun p =>
              map (fun s => mkMerged (fst p) (snd p) (x s) (y s) (country s))
                  (filter (fun s => String.eqb (bus_id s) (fst p)) right))
           left.

Definition add_everywhere_powerplants (ppl : DataFrame) (substations : list Bus)
    (everywhere_powerplants : list string) : result DataFrame :=
  let merged :=
    merge (list_prod (map bus_id substations) everywhere_powerplants) substations in
  let date_in := series_min (column DateIn ppl) in
  let date_out := series_max (column DateOut ppl) in
  (* drop substation_index, rename x, y, country, then the default columns *)
  let everywhere_rows :=
    map (fun m =>
           mkRow ("Automatically added everywhere-powerplant " ++ m_Fueltype m)
                 (m_Fueltype m)
                 (Some (m_Fueltype m))
                 (Some "PP")
                 (m_country m)
                 (Some 0%Q)
                 None
                 date_in
                 date_out
                 (Some (m_y m))
                 (Some (m_x m))
                 None
                 []) merged in
  let everywhere_ppl := combine (default_index (List.length everywhere_rows)) everywhere_rows in
  concat [ppl; everywhere_ppl] true true.

(** ** The main block *)

(** [str(n)] of a non-negative integer: its decimal numeral. *)
Definition str (n : nat) : string := NilEmpty.string_of_uint (Nat.to_uint n).

(** Lines 183-188: bioenergy rows are taken from OPSD for the countries OPSD
    covers.  [opsd] is [pm.data.OPSD_VRE()] with its country codes already
    converted. *)
Definition correct_bioenergy (ppl opsd : DataFrame) (countries : list string)
    : result DataFrame :=
  let opsd :=
    query_rows (fun r => isin (Country r) countries
                         && String.eqb (Fueltype r) "Bioenergy") opsd in
  let opsd := assign_scalar with_Name "Biomass" opsd in
  let available_countries := unique (column Country opsd) in
  let ppl :=
    query_rows (fun r => negb (isin (Country r) available_countries
                               && String.eqb (Fueltype r) "Bioenergy")) ppl in
  concat [ppl; opsd] false false.

(** [Series.isnull()], [Series.any()], [Series.sum()] of a boolean column. *)
Definition isnull {A : Type} (s : Series (option A)) : Series bool :=
  map (fun cell => match cell with Some _ => false | None => true end) s.

Definition any (s : Series bool) : bool := existsb (fun b => b) s.

Definition sum (s : Series bool) : nat :=
  fold_right (fun (b : bool) n => if b then S n else n) 0 s.

(** Lines 212-218. *)
Definition drop_null_bus (ppl : DataFrame) : M DataFrame :=
  let bus_null_b := isnull (column bus ppl) in
  if any bus_null_b then
    emit (Warning ("Couldn't find close bus for " ++ str (sum bus_null_b)
                   ++ " powerplants. "
                   ++ "Removing them from the powerplants list.")) ;;;
    ret (select ppl (series_not bus_null_b))
  else ret ppl.

(** The key of [groupby(["bus", "Fueltype"])]. *)
Definition group_key : Type := option string * string.

Definition key_eqb (a b : group_key) : bool :=
  match fst a, fst b with
  | Some u, Some v => String.eqb u v && String.eqb (snd a) (snd b)
  | None, None => String.eqb (snd a) (snd b)
  | _, _ => false
  end.

Definition key_of (r : Row) : group_key := (bus r, Fueltype r).

(** [groupby(keys).cumcount()]: each row gets the number of earlier rows of
    its group, in the order of the frame.  pandas leaves a row with a null in
    its key out of every group; the script groups only rows that have a bus
    (the others are removed just before), and the statements about the
    grouping are made for such tables. *)
Fixpoint cumcount_from (seen : list group_key) (keys : Series group_key) : Series nat :=
  match keys with
  | [] => []
  | k :: keys' =>
      List.length (filter (key_eqb k) seen) :: cumcount_from (k :: seen) keys'
  end.

Definition groupby_cumcount (df : DataFrame) : Series nat :=
  cumcount_from [] (column key_of df).

(** [a + b] on string columns, cell by cell, and with a scalar on the right. *)
Fixpoint str_add (a b : Series string) : Series string :=
  match a, b with
  | u :: a', v :: b' => (u ++ v)%string :: str_add a' b'
  | _, _ => []
  end.

Definition str_add_scalar (a : Series string) (v : string) : Series string :=
  map (fun u => (u ++ v)%string) a.

(** Lines 221-222. *)
Definition dedup_names (ppl : DataFrame) : DataFrame :=
  let cumcount := map (fun c => c + 1) (groupby_cumcount ppl) in
  assign with_Name ppl
    (where_ (column Name ppl)
            (map (fun c => Nat.eqb c 1) cumcount)
            (str_add (str_add_scalar (column Name ppl) " ") (map str cumcount))).

(** [df.dropna(subset=["lat", "lon"])]. *)
Definition dropna_lat_lon (df : DataFrame) : DataFrame :=
  query_rows (fun r => match lat r, lon r with
                       | Some _, Some _ => true
                       | _, _ => false
                       end) df.

(** [df.reset_index(drop=True)]. *)
Definition reset_index (df : DataFrame) : DataFrame :=
  combine (default_index (List.length df)) (rows df).

(** Lines 200-201; the countries are reported in the order of the
    configuration. *)
Definition warn_countries_without_ppl (countries : list string) (ppl : DataFrame)
    : M unit :=
  let present := unique (column Country ppl) in
  let countries_wo_ppl := filter (fun c => negb (isin c present)) (unique countries) in
  match countries_wo_ppl with
  | [] => ret tt
  | _ => emit (Warning ("No powerplants known in: "
                        ++ String.concat ", " countries_wo_ppl))
  end.

(** Lines 208-222, from the bus assignment on. *)
Definition finalize (ppl : DataFrame) : M DataFrame :=
  ppl <- drop_null_bus ppl ;;
  ret (dedup_names ppl).

(** The main block.  [powerplants] is the table powerplantmatching returns
    after its two clean-up calls, [opsd] the OPSD table with converted country
    codes, [buses] the buses of the base network; the rest are the snakemake
    parameters and inputs.  The result is the frame written to the csv.
    Loading the network and the two tables, writing the file, and anything
    the matcher does besides returning a table are not part of the trace. *)
Definition main (powerplants opsd : DataFrame) (buses : list Bus)
    (countries : list string) (powerplants_filter : PyVal)
    (custom_powerplants_file : string) (custom_powerplants : PyVal)
    (everywhere_powerplants : list string) : M DataFrame :=
  let ppl :=
    canonicalize
      (query_rows (fun r => negb (isin (Fueltype r) ["Solar"; "Wind"])
                            && isin (Country r) countries) powerplants) in
  ppl <- lift (correct_bioenergy ppl opsd countries) ;;
  ppl <- match powerplants_filter with
         | PyStr ppl_query => lift (query ppl_query ppl)
         | _ => ret ppl
         end ;;
  ppl <- add_custom_powerplants ppl custom_powerplants_file custom_powerplants ;;
  warn_countries_without_ppl countries ppl ;;;
  ppl <- lift (add_everywhere_powerplants ppl (substations_of buses)
                 everywhere_powerplants) ;;
  let substations := substations_of buses in
  let ppl := dropna_lat_lon ppl in
  let ppl := map_country_bus ppl substations in
  ppl <- finalize ppl ;;
  ret (reset_index ppl).

End Script.

(** ** Row-wise readings used in the statements *)

(** What the two relabelling passes do to one row. *)
Definition technology_of (r : Row) : option string :=
  if String.eqb (Fueltype r) "Natural Gas" then
    match Technology r with
    | Some v =>
        if String.eqb v "Steam Turbine" then Some "CCGT"
        else if String.eqb v "Combustion Engine" then Some "OCGT"
        else Some v
    | None => Some "CCGT"
    end
  else Technology r.

Definition fueltype_of (r : Row) : string :=
  if opt_eqb (Technology r) "OCGT" || opt_eqb (Technology r) "CCGT"
  then "Natural Gas" else Fueltype r.

Definition canonicalize_row (r : Row) : Row :=
  let r1 := with_Technology (technology_of r) r in
  with_Fueltype (fueltype_of r1) r1.

(** Technology is one of OCGT and CCGT. *)
Definition gas_turbine (t : option string) : Prop :=
  t = Some "OCGT" \/ t = Some "CCGT".


Definition has_bus (r : Row) : Prop := bus r <> None.

(** The position of row number [i] within its (bus, Fueltype) group, counted
    from 1: the number of rows up to and including it that share its key. *)
Definition occurrence (l : list Row) (i : nat) (r : Row) : nat :=
  List.length (filter (fun q => key_eqb (key_of q) (key_of r)) (firstn (S i) l)).

Definition group_size (l : list Row) (r : Row) : nat :=
  List.length (filter (fun q => key_eqb (key_of q) (key_of r)) l).

(** [m] is the least non-null cell of [s], or null when there is none. *)
Definition least_of (s : Series (option Z)) (m : option Z) : Prop :=
  match m with
  | Some v => In (Some v) s /\ forall w, In (Some w) s -> (v <= w)%Z
  | None => forall w, ~ In (Some w) s
  end.

Definition greatest_of (s : Series (option Z)) (m : option Z) : Prop :=
  match m with
  | Some v => In (Some v) s /\ forall w, In (Some w) s -> (w <= v)%Z
  | None => forall w, ~ In (Some w) s
  end.

(** The placeholder row for one substation and one fuel type. *)
Definition everywhere_row (date_in date_out : option Z) (s : Bus) (f : string) : Row :=
  mkRow ("Automatically added everywhere-powerplant " ++ f) f (Some f) (Some "PP")
        (country s) (Some 0%Q) None date_in date_out (Some (y s)) (Some (x s))
        None [].

(** The row has a bus, as a test. *)
Definition has_busb (r : Row) : bool :=
  match bus r with Some _ => true | None => false end.

(** What the renaming pass does to the [k]-th row of a group. *)
Definition rename (k : nat) (r : Row) : Row :=
  with_Name (if Nat.eqb k 1 then Name r else ((Name r ++ " ") ++ str k)%string) r.

(** The renaming pass as one traversal, with the keys met so far. *)
Fixpoint dedup_from (seen : list group_key) (df : DataFrame) : DataFrame :=
  match df with
  | [] => []
  | (i, r) :: df' =>
      (i, rename (List.length (filter (key_eqb (key_of r)) seen) + 1) r)
        :: dedup_from (key_of r :: seen) df'
  end.

(** The warning logged when [n] plants are left without a bus. *)
Definition no_close_bus (n : nat) : Event :=
  Warning ("Couldn't find close bus for " ++ str n ++ " powerplants. "
           ++ "Removing them from the powerplants list.").

(** The event is a logged warning (not a file read). *)
Definition is_warning (e : Event) : Prop :=
  match e with
  | Warning _ => True
  | ReadCsv _ => False
  end.

(** The string holds a space. *)
Fixpoint has_space (s : string) : bool :=
  match s with
  | EmptyString => false
  | String c s' => Ascii.eqb c " "%char || has_space s'
  end.

(** The main block from the warning about uncovered countries on, and from
    the custom plants on; [main] is these two after its first two steps. *)
Definition after_custom (map_country_bus : DataFrame -> list Bus -> DataFrame)
    (buses : list Bus) (countries : list string)
    (everywhere_powerplants : list string) (ppl : DataFrame) : M DataFrame :=
  warn_countries_without_ppl countries ppl ;;;
  ppl <- lift (add_everywhere_powerplants ppl (substations_of buses)
                 everywhere_powerplants) ;;
  let substations := substations_of buses in
  let ppl := dropna_lat_lon ppl in
  let ppl := map_country_bus ppl substations in
  ppl <- finalize ppl ;;
  ret (reset_index ppl).

Definition after_filter (fs : string -> option DataFrame)
    (query_pred : string -> option (Row -> bool))
    (map_country_bus : DataFrame -> list Bus -> DataFrame)
    (buses : list Bus) (countries : list string)
    (custom_powerplants_file : string) (custom_powerplants : PyVal)
    (everywhere_powerplants : list string) (ppl : DataFrame) : M DataFrame :=
  ppl <- add_custom_powerplants fs query_pred ppl custom_powerplants_file
           custom_powerplants ;;
  after_custom map_country_bus buses countries everywhere_powerplants ppl.

(** ** Concrete inputs *)

Definition plant (name fuel : string) (tech : option string) (ctry : string)
    (b : option string) : Row :=
  mkRow name fuel tech (Some "PP") ctry (Some 100%Q) None
        (Some 1990%Z) (Some 2040%Z) (Some 50%Q) (Some 8%Q) b [].

Definition no_files : string -> option DataFrame := fun _ => None.

Definition no_queries : string -> option (Row -> bool) := fun _ => None.

(** A matcher for the examples: the nearest substation of the row's country by
    squared distance, null when the country has none. *)
Definition sqdist (r : Row) (s : Bus) : option Q :=
  match lon r, lat r with
  | Some lo, Some la =>
      Some (Qplus (Qmult (Qminus lo (x s)) (Qminus lo (x s)))
                  (Qmult (Qminus la (y s)) (Qminus la (y s))))
  | _, _ => None
  end.

Definition nearer (r : Row) (a b : Bus) : Bus :=
  match sqdist r a, sqdist r b with
  | Some da, Some db => if Qle_bool da db then a else b
  | _, _ => a
  end.

Definition nearest_bus (df : DataFrame) (substations : list Bus) : DataFrame :=
  map (fun ir =>
         let r := snd ir in
         match filter (fun s => String.eqb (country s) (Country r)) substations with
         | [] => (fst ir, with_bus None r)
         | s :: rest => (fst ir, with_bus (Some (bus_id (fold_left (nearer r) rest s))) r)
         end) df.

Definition one_substation : list Bus :=
  [mkBus "DE0 1" 8%Q 50%Q "DE" true].

(** One natural gas plant with a Technology the mapping does not list. *)
Definition gas_unlisted : DataFrame :=
  [(0%Z, plant "Gas One" "Natural Gas" (Some "Unknown") "DE" None)].

(** One natural gas plant already labelled OCGT. *)
Definition gas_ocgt : DataFrame :=
  [(0%Z, plant "Gas Two" "Natural Gas" (Some "OCGT") "DE" None)].

Definition coal_plant : DataFrame :=
  [(0%Z, plant "Coal One" "Coal" (Some "Steam Turbine") "DE" None)].

(** A custom file holding the very row of [coal_plant]. *)
Definition custom_file : string -> option DataFrame :=
  fun path => if String.eqb path "data/custom_powerplants.csv"
              then Some coal_plant else None.

(** Three plants of one bus and one fuel with the same name. *)
Definition three_at_one_bus : DataFrame :=
  [(0%Z, plant "Plant A" "Coal" None "DE" (Some "DE0 1"));
   (1%Z, plant "Plant A" "Coal" None "DE" (Some "DE0 1"));
   (2%Z, plant "Plant A" "Coal" None "DE" (Some "DE0 1"))].

(** Two plants of one bus and one fuel, the first already named like a second
    unit. *)
Definition named_like_a_suffix : DataFrame :=
  [(0%Z, plant "Plant A 2" "Coal" None "DE" (Some "DE0 1"));
   (1%Z, plant "Plant A" "Coal" None "DE" (Some "DE0 1"))].

(** Two of three plants left without a bus. *)
Definition two_without_bus : DataFrame :=
  [(0%Z, plant "P1" "Coal" None "DE" None);
   (1%Z, plant "P2" "Coal" None "DE" (Some "DE0 1"));
   (2%Z, plant "P3" "Lignite" None "DE" None)].

(** A query evaluator that knows one expression. *)
Definition only_germany : string -> option (Row -> bool) :=
  fun expr => if String.eqb expr "Country in ['DE']"
              then Some (fun r => String.eqb (Country r) "DE") else None.

(** A custom file with one German and one French plant. *)
Definition two_countries : DataFrame :=
  [(0%Z, plant "Custom DE" "Coal" None "DE" None);
   (1%Z, plant "Custom FR" "Nuclear" None "FR" None)].

Definition custom_two_countries : string -> option DataFrame :=
  fun path => if String.eqb path "data/custom_powerplants.csv"
              then Some two_countries else None.

(** Two plants of one bus with different fuels. *)
Definition two_fuels : DataFrame :=
  [(0%Z, plant "P2" "Coal" None "DE" (Some "DE0 1"));
   (1%Z, plant "P3" "Lignite" None "DE" (Some "DE0 1"))].

(** A first table with one bioenergy plant and one coal plant, and an OPSD
    table with one bioenergy unit of the same country. *)
Definition bio_primary : DataFrame :=
  [(0%Z, plant "Old Bio" "Bioenergy" None "DE" None);
   (1%Z, plant "Coal One" "Coal" (Some "Steam Turbine") "DE" None)].

Definition opsd_biomass : DataFrame :=
  [(7%Z, plant "OPSD unit" "Bioenergy" None "DE" None)].

(** * Properties *)

(** ** Columns computed cell by cell *)

Lemma mask_map {A B : Type} (f : B -> A) (c : B -> bool) (o : B -> A) (l : list B) :
  mask (map f l) (map c l) (map o l) = map (fun b => if c b then o b else f b) l.
Proof.
  induction l as [|b l IH]; simpl; [reflexivity|].
  now rewrite IH.
Qed.

Lemma mask_scalar_map {A B : Type} (f : B -> A) (c : B -> bool) (v : A) (l : list B) :
  mask_scalar (map f l) (map c l) v = map (fun b => if c b then v else f b) l.
Proof.
  induction l as [|b l IH]; simpl; [reflexivity|].
  now rewrite IH.
Qed.

Lemma series_or_map {B : Type} (f g : B -> bool) (l : list B) :
  series_or (map f l) (map g l) = map (fun b => f b || g b) l.
Proof.
  induction l as [|b l IH]; simpl; [reflexivity|].
  now rewrite IH.
Qed.

Lemma assign_map {A : Type} (set : A -> Row -> Row) (g : Z * Row -> A) (df : DataFrame) :
  assign set df (map g df) = map (fun ir => (fst ir, set (g ir) (snd ir))) df.
Proof.
  induction df as [|[i r] df IH]; simpl; [reflexivity|].
  now rewrite IH.
Qed.

Lemma select_map (keep : Z * Row -> bool) (df : DataFrame) :
  select df (map keep df) = filter keep df.
Proof.
  induction df as [|ir df IH]; simpl; [reflexivity|].
  rewrite IH. reflexivity.
Qed.

Lemma rows_app (a b : DataFrame) : rows (a ++ b) = rows a ++ rows b.
Proof. apply map_app. Qed.

Lemma rows_combine (idx : list Z) (l : list Row) :
  List.length idx = List.length l -> rows (combine idx l) = l.
Proof.
  revert l. induction idx as [|i idx IH]; intros [|r l] H; simpl in *;
    try reflexivity; try discriminate.
  f_equal. apply IH. lia.
Qed.

Lemma length_default_index (n : nat) : List.length (default_index n) = n.
Proof. unfold default_index. now rewrite length_map, length_seq. Qed.

Lemma rows_reset (l : list Row) :
  rows (combine (default_index (List.length l)) l) = l.
Proof. apply rows_combine, length_default_index. Qed.

Lemma concat_ignore_index (a b : DataFrame) (verify_integrity : bool) :
  concat [a; b] true verify_integrity = Ok (reset_index (a ++ b)).
Proof. unfold concat, reset_index. simpl. now rewrite app_nil_r. Qed.

Lemma rows_reset_index (df : DataFrame) : rows (reset_index df) = rows df.
Proof.
  unfold reset_index. apply rows_combine.
  unfold rows. now rewrite length_default_index, length_map.
Qed.

Lemma index_reset_index (df : DataFrame) :
  index (reset_index df) = default_index (List.length df).
Proof.
  unfold reset_index, index.
  assert (H : forall (idx : list Z) (l : list Row),
             List.length idx = List.length l -> map fst (combine idx l) = idx).
  { induction idx as [|i idx IH]; intros [|r l] Hl; simpl in *;
      try reflexivity; try discriminate.
    f_equal. apply IH. lia. }
  apply H. unfold rows. now rewrite length_default_index, length_map.
Qed.

(** ** The relabelling passes, row by row *)

Lemma replace_natural_gas_technology_rowwise (df : DataFrame) :
  replace_natural_gas_technology df = map (fun ir => technology_of (snd ir)) df.
Proof.
  unfold replace_natural_gas_technology, column, eq_str, fillna, replace.
  rewrite !map_map, mask_map.
  apply map_ext. intros [i r]. unfold technology_of. simpl.
  destruct (Technology r) as [v|]; [|reflexivity].
  destruct (String.eqb v "Steam Turbine"); [reflexivity|].
  destruct (String.eqb v "Combustion Engine"); reflexivity.
Qed.

Lemma replace_natural_gas_fueltype_rowwise (df : DataFrame) :
  replace_natural_gas_fueltype df = map (fun ir => fueltype_of (snd ir)) df.
Proof.
  unfold replace_natural_gas_fueltype, column, eq_opt_str.
  rewrite !map_map, series_or_map, mask_scalar_map. reflexivity.
Qed.

Lemma canonicalize_rowwise (df : DataFrame) :
  canonicalize df = map (fun ir => (fst ir, canonicalize_row (snd ir))) df.
Proof.
  unfold canonicalize.
  rewrite replace_natural_gas_technology_rowwise, assign_map.
  rewrite replace_natural_gas_fueltype_rowwise, assign_map.
  rewrite map_map. apply map_ext. intros [i r]. reflexivity.
Qed.


Lemma opt_eqb_eq (t : option string) (v : string) :
  opt_eqb t v = true <-> t = Some v.
Proof.
  destruct t as [u|]; simpl.
  - rewrite String.eqb_eq. split; [intros ->; reflexivity | now intros [= ->]].
  - split; discriminate.
Qed.

Lemma gas_turbine_bool (t : option string) :
  opt_eqb t "OCGT" || opt_eqb t "CCGT" = true <-> gas_turbine t.
Proof.
  unfold gas_turbine. rewrite orb_true_iff, !opt_eqb_eq. reflexivity.
Qed.

Lemma Forall2_map_both {A B C : Type} (P : B -> C -> Prop) (f : A -> B) (g : A -> C)
    (l : list A) :
  (forall a, In a l -> P (f a) (g a)) -> Forall2 P (map f l) (map g l).
Proof.
  induction l as [|a l IH]; intros H; simpl; constructor.
  - apply H. now left.
  - apply IH. intros b Hb. apply H. now right.
Qed.

Lemma canonicalize_row_idempotent (r : Row) :
  canonicalize_row (canonicalize_row r) = canonicalize_row r.
Proof.
  destruct r as [n f t s c cap eff din dout la lo b p].
  unfold canonicalize_row, technology_of, fueltype_of, with_Fueltype,
    with_Technology, opt_eqb; simpl.
  destruct (String.eqb f "Natural Gas") eqn:Ef; simpl.
  - destruct t as [v|]; simpl; [|reflexivity].
    destruct (String.eqb v "Steam Turbine") eqn:E1; simpl; [reflexivity|].
    destruct (String.eqb v "Combustion Engine") eqn:E2; simpl; [reflexivity|].
    destruct (String.eqb v "OCGT" || String.eqb v "CCGT") eqn:E3; simpl;
      rewrite ?Ef; simpl; rewrite ?E1, ?E2, ?E3; reflexivity.
  - destruct t as [v|]; simpl; [|rewrite Ef; reflexivity].
    destruct (String.eqb v "OCGT" || String.eqb v "CCGT") eqn:E3; simpl.
    + destruct (String.eqb v "Steam Turbine") eqn:E1.
      { apply String.eqb_eq in E1. subst v. discriminate E3. }
      destruct (String.eqb v "Combustion Engine") eqn:E2.
      { apply String.eqb_eq in E2. subst v. discriminate E3. }
      rewrite E3. reflexivity.
    + rewrite Ef, E3. reflexivity.
Qed.

(** ** Claims on the relabelling *)

(** C3 (as amended): on the rows whose Fueltype is "Natural Gas",
    replace_natural_gas_technology turns Technology "Steam Turbine" into
    "CCGT", "Combustion Engine" into "OCGT" and a null Technology into "CCGT",
    and keeps every other Technology value as it is; on every other row the
    Technology is unchanged. *)
Theorem replace_natural_gas_technology_cells (df : DataFrame) :
  Forall2 (fun r t' =>
             (Fueltype r = "Natural Gas" ->
              (Technology r = Some "Steam Turbine" -> t' = Some "CCGT")
              /\ (Technology r = Some "Combustion Engine" -> t' = Some "OCGT")
              /\ (Technology r = None -> t' = Some "CCGT")
              /\ (forall v, Technology r = Some v -> v <> "Steam Turbine" ->
                            v <> "Combustion Engine" -> t' = Some v))
             /\ (Fueltype r <> "Natural Gas" -> t' = Technology r))
          (rows df) (replace_natural_gas_technology df).
Proof.
  rewrite replace_natural_gas_technology_rowwise. unfold rows.
  apply Forall2_map_both. intros [i r] _. simpl. unfold technology_of.
  destruct (String.eqb_spec (Fueltype r) "Natural Gas") as [Hf|Hf].
  - split; [|intros Hn; contradiction]. intros _.
    destruct (Technology r) as [v|].
    + repeat split.
      * intros [= ->]. reflexivity.
      * intros [= ->]. reflexivity.
      * discriminate.
      * intros w [= ->] H1 H2.
        destruct (String.eqb_spec w "Steam Turbine"); [contradiction|].
        destruct (String.eqb_spec w "Combustion Engine"); [contradiction|].
        reflexivity.
    + repeat split; intros; try discriminate; reflexivity.
  - split; [intros Hn; contradiction|]. reflexivity.
Qed.

(** C3, the claim as written fails: a natural gas row labelled "OCGT" is
    neither "Steam Turbine" nor "Combustion Engine", and it is not turned into
    "CCGT". *)
Lemma technology_other_value_counterexample :
  ~ Forall2 (fun r t' =>
               Fueltype r = "Natural Gas" ->
               Technology r <> Some "Steam Turbine" ->
               Technology r <> Some "Combustion Engine" ->
               t' = Some "CCGT")
            (rows gas_ocgt) (replace_natural_gas_technology gas_ocgt).
Proof.
  intros H. inversion H as [|r t' l l' Hrow _]; subst.
  simpl in Hrow.
  assert (Some "OCGT" = Some "CCGT") as Habs
      by (apply Hrow; [reflexivity | discriminate | discriminate]).
  discriminate Habs.
Qed.

(** C7: applying replace_natural_gas_technology and then
    replace_natural_gas_fueltype a second time changes nothing. *)
Theorem canonicalize_idempotent (df : DataFrame) :
  canonicalize (canonicalize df) = canonicalize df.
Proof.
  rewrite !canonicalize_rowwise, map_map.
  apply map_ext. intros [i r]. simpl.
  now rewrite canonicalize_row_idempotent.
Qed.




(** ** Concatenation and the custom plants *)

(** The function unfolded for a truthy query argument. *)
Lemma add_custom_powerplants_truthy
    (fs : string -> option DataFrame) (query_pred : string -> option (Row -> bool))
    (ppl : DataFrame) (path : string) (q : PyVal) (t : Trace) :
  truthy q = true ->
  add_custom_powerplants fs query_pred ppl path q t
  = match fs path with
    | None => (Raise (FileNotFoundError path), t ++ [ReadCsv path])
    | Some add =>
        match q with
        | PyStr expr =>
            match query_pred expr with
            | Some p => (Ok (reset_index (ppl ++ query_rows p add)), t ++ [ReadCsv path])
            | None => (Raise (QueryError expr), t ++ [ReadCsv path])
            end
        | _ => (Ok (reset_index (ppl ++ add)), t ++ [ReadCsv path])
        end
    end.
Proof.
  intros Hq. unfold add_custom_powerplants. rewrite Hq.
  unfold bind, read_csv, emit, lift, ret, query. cbn [negb].
  destruct (fs path) as [add|]; [|reflexivity].
  destruct q as [|b|z|expr]; rewrite <- ?concat_ignore_index with (verify_integrity := true);
    try reflexivity.
  destruct (query_pred expr) as [p|]; [|reflexivity].
  now rewrite <- concat_ignore_index with (verify_integrity := true).
Qed.

(** C10: when the query argument of add_custom_powerplants is falsy (the
    empty string, None, 0 or False) the frame is returned as it is and nothing
    is read: the trace is unchanged, whatever the custom file holds and
    whether or not it exists. *)
Theorem add_custom_powerplants_falsy
    (fs : string -> option DataFrame) (query_pred : string -> option (Row -> bool))
    (ppl : DataFrame) (custom_powerplants : string) (custom_ppl_query : PyVal)
    (t : Trace) :
  truthy custom_ppl_query = false ->
  add_custom_powerplants fs query_pred ppl custom_powerplants custom_ppl_query t
  = (Ok ppl, t).
Proof.
  intros H. unfold add_custom_powerplants. rewrite H. reflexivity.
Qed.

Lemma add_custom_powerplants_falsy_witness :
  truthy (PyStr "") = false
  /\ add_custom_powerplants custom_file no_queries gas_ocgt
       "data/custom_powerplants.csv" (PyStr "") []
     = (Ok gas_ocgt, []).
Proof.
  split; [reflexivity|].
  apply (add_custom_powerplants_falsy custom_file no_queries gas_ocgt
           "data/custom_powerplants.csv" (PyStr "") []).
  reflexivity.
Defined.

(** The values the claim names are falsy. *)
Lemma falsy_values :
  truthy (PyStr "") = false /\ truthy PyNone = false
  /\ truthy (PyInt 0) = false /\ truthy (PyBool false) = false.
Proof. repeat split. Qed.

(** C1 (as amended): the concatenation step of add_custom_powerplants and of
    add_everywhere_powerplants never fails because of repeated rows.  Its
    integrity check looks at the row index only, and the index is reset to
    0..n-1 by the same call.  Whether or not a row of the result repeats
    another, the step succeeds and returns the rows of the table followed by
    the appended rows: in add_custom_powerplants the rows of the custom file
    that was read (those selected by the query expression, if one is given and
    accepted), in add_everywhere_powerplants the rows generated for the
    substations. *)
Theorem concat_accepts_repeated_rows :
  (forall (ppl add : DataFrame),
      exists df, concat [ppl; add] true true = Ok df
                 /\ rows df = rows ppl ++ rows add
                 /\ index df = default_index (List.length ppl + List.length add))
  /\ (forall fs query_pred ppl custom_powerplants custom_ppl_query t add,
         truthy custom_ppl_query = true ->
         fs custom_powerplants = Some add ->
         (forall expr, custom_ppl_query = PyStr expr -> query_pred expr <> None) ->
         exists df appended,
           fst (add_custom_powerplants fs query_pred ppl custom_powerplants
                  custom_ppl_query t) = concat [ppl; appended] true true
           /\ concat [ppl; appended] true true = Ok df
           /\ rows df = rows ppl ++ rows appended
           /\ ((forall expr, custom_ppl_query <> PyStr expr) /\ appended = add
               \/ exists expr p, custom_ppl_query = PyStr expr
                                 /\ query_pred expr = Some p
                                 /\ appended = query_rows p add))
  /\ (forall ppl substations everywhere_powerplants,
         exists df everywhere_ppl,
           add_everywhere_powerplants ppl substations everywhere_powerplants
           = concat [ppl; everywhere_ppl] true true
           /\ concat [ppl; everywhere_ppl] true true = Ok df
           /\ rows df = rows ppl ++ rows everywhere_ppl).
Proof.
  split; [|split].
  - intros ppl add. exists (reset_index (ppl ++ add)).
    rewrite concat_ignore_index, rows_reset_index, index_reset_index.
    now rewrite rows_app, length_app.
  - intros fs qp ppl path q t add Hq Hfs Hacc.
    rewrite (add_custom_powerplants_truthy fs qp ppl path q t Hq), Hfs.
    assert (Hplain : (forall expr, q <> PyStr expr) ->
               exists df appended,
                 Ok (reset_index (ppl ++ add)) = concat [ppl; appended] true true
                 /\ concat [ppl; appended] true true = Ok df
                 /\ rows df = rows ppl ++ rows appended
                 /\ ((forall expr, q <> PyStr expr) /\ appended = add
                     \/ exists expr p, q = PyStr expr /\ qp expr = Some p
                                       /\ appended = query_rows p add)).
    { intros Hns. exists (reset_index (ppl ++ add)), add.
      rewrite concat_ignore_index, rows_reset_index, rows_app.
      repeat split. left. now split. }
    destruct q as [|b|z|expr]; cbn [fst];
      try (apply Hplain; discriminate).
    destruct (qp expr) as [p|] eqn:Hp; [|now destruct (Hacc expr eq_refl)].
    exists (reset_index (ppl ++ query_rows p add)), (query_rows p add).
    cbn [fst]. rewrite concat_ignore_index, rows_reset_index, rows_app.
    repeat split. right. now exists expr, p.
  - intros ppl subs fuels. unfold add_everywhere_powerplants.
    eexists. eexists. split; [reflexivity|].
    rewrite concat_ignore_index. split; [reflexivity|].
    now rewrite rows_reset_index, rows_app.
Qed.

Lemma concat_accepts_repeated_rows_witness :
  truthy (PyBool true) = true
  /\ custom_file "data/custom_powerplants.csv" = Some coal_plant
  /\ exists df appended,
      fst (add_custom_powerplants custom_file no_queries coal_plant
             "data/custom_powerplants.csv" (PyBool true) [])
      = concat [coal_plant; appended] true true
      /\ concat [coal_plant; appended] true true = Ok df
      /\ rows df = rows coal_plant ++ rows appended.
Proof.
  split; [reflexivity|]. split; [reflexivity|].
  assert (Hacc : forall expr, PyBool true = PyStr expr -> no_queries expr <> None)
    by (intros expr H; discriminate H).
  destruct (proj1 (proj2 concat_accepts_repeated_rows) custom_file no_queries
              coal_plant "data/custom_powerplants.csv" (PyBool true) []
              coal_plant eq_refl eq_refl Hacc)
    as [df [appended [H1 [H2 [H3 _]]]]].
  exists df, appended. repeat split; assumption.
Defined.

(** C1, the claim as written fails: merging a custom file that repeats a row
    of the base table succeeds and returns the repeated row twice. *)
Lemma repeated_row_counterexample :
  exists df,
    fst (run (add_custom_powerplants custom_file no_queries coal_plant
                "data/custom_powerplants.csv" (PyBool true))) = Ok df
    /\ rows df = rows coal_plant ++ rows coal_plant
    /\ ~ NoDup (rows df).
Proof.
  eexists. split; [vm_compute; reflexivity|]. split; [reflexivity|].
  intros H. inversion H as [|r l Hnotin _]; subst.
  apply Hnotin. now left.
Qed.

(** ** Minimum and maximum of a column *)

Lemma skipna_min_from (s pre : Series (option Z)) (acc : option Z) :
  least_of pre acc ->
  least_of (pre ++ s)
    (fold_left (fun acc cell =>
                  match cell, acc with
                  | Some v, Some m => Some (Z.min m v)
                  | Some v, None => Some v
                  | None, _ => acc
                  end) s acc).
Proof.
  revert pre acc. induction s as [|cell s IH]; intros pre acc Hacc; simpl.
  - now rewrite app_nil_r.
  - replace (pre ++ cell :: s) with ((pre ++ [cell]) ++ s)
      by (now rewrite <- app_assoc).
    apply IH. destruct cell as [v|], acc as [m|]; simpl in *.
    + destruct Hacc as [Hin Hle]. split.
      * apply in_or_app. destruct (Z.min_spec m v) as [[_ ->]|[_ ->]];
          [left; exact Hin | right; now left].
      * intros w Hw. apply in_app_or in Hw. destruct Hw as [Hw|[[= ->]|[]]].
        -- specialize (Hle w Hw). lia.
        -- lia.
    + split.
      * apply in_or_app. right. now left.
      * intros w Hw. apply in_app_or in Hw. destruct Hw as [Hw|[[= ->]|[]]].
        -- now apply Hacc in Hw.
        -- lia.
    + destruct Hacc as [Hin Hle]. split.
      * apply in_or_app. now left.
      * intros w Hw. apply in_app_or in Hw. destruct Hw as [Hw|[Hw|[]]].
        -- now apply Hle.
        -- discriminate Hw.
    + intros w Hw. apply in_app_or in Hw. destruct Hw as [Hw|[Hw|[]]].
      * now apply Hacc in Hw.
      * discriminate Hw.
Qed.

Lemma series_min_least (s : Series (option Z)) : least_of s (series_min s).
Proof.
  apply (skipna_min_from s [] None). intros w [].
Qed.

Lemma skipna_max_from (s pre : Series (option Z)) (acc : option Z) :
  greatest_of pre acc ->
  greatest_of (pre ++ s)
    (fold_left (fun acc cell =>
                  match cell, acc with
                  | Some v, Some m => Some (Z.max m v)
                  | Some v, None => Some v
                  | None, _ => acc
                  end) s acc).
Proof.
  revert pre acc. induction s as [|cell s IH]; intros pre acc Hacc; simpl.
  - now rewrite app_nil_r.
  - replace (pre ++ cell :: s) with ((pre ++ [cell]) ++ s)
      by (now rewrite <- app_assoc).
    apply IH. destruct cell as [v|], acc as [m|]; simpl in *.
    + destruct Hacc as [Hin Hle]. split.
      * apply in_or_app. destruct (Z.max_spec m v) as [[_ ->]|[_ ->]];
          [right; now left | left; exact Hin].
      * intros w Hw. apply in_app_or in Hw. destruct Hw as [Hw|[[= ->]|[]]].
        -- specialize (Hle w Hw). lia.
        -- lia.
    + split.
      * apply in_or_app. right. now left.
      * intros w Hw. apply in_app_or in Hw. destruct Hw as [Hw|[[= ->]|[]]].
        -- now apply Hacc in Hw.
        -- lia.
    + destruct Hacc as [Hin Hle]. split.
      * apply in_or_app. now left.
      * intros w Hw. apply in_app_or in Hw. destruct Hw as [Hw|[Hw|[]]].
        -- now apply Hle.
        -- discriminate Hw.
    + intros w Hw. apply in_app_or in Hw. destruct Hw as [Hw|[Hw|[]]].
      * now apply Hacc in Hw.
      * discriminate Hw.
Qed.

Lemma series_max_greatest (s : Series (option Z)) : greatest_of s (series_max s).
Proof.
  apply (skipna_max_from s [] None). intros w [].
Qed.

(** ** Plants placed at every substation *)

Lemma filter_unique_label (subs : list Bus) (s : Bus) :
  NoDup (map bus_id subs) -> In s subs ->
  filter (fun s' => String.eqb (bus_id s') (bus_id s)) subs = [s].
Proof.
  induction subs as [|a subs IH]; intros Hnd Hin; [destruct Hin|].
  simpl in Hnd. apply NoDup_cons_iff in Hnd. destruct Hnd as [Hnotin Hnd].
  simpl. destruct Hin as [->|Hin].
  - rewrite String.eqb_refl. f_equal.
    assert (H : forall l, ~ In (bus_id s) (map bus_id l) ->
                          filter (fun s' => String.eqb (bus_id s') (bus_id s)) l = []).
    { induction l as [|b l IHl]; intros Hn; [reflexivity|]. simpl in *.
      destruct (String.eqb_spec (bus_id b) (bus_id s)) as [E|E].
      - exfalso. apply Hn. now left.
      - apply IHl. intros Hc. apply Hn. now right. }
    now apply H.
  - destruct (String.eqb_spec (bus_id a) (bus_id s)) as [E|E].
    + exfalso. apply Hnotin. rewrite E. now apply in_map.
    + now apply IH.
Qed.

Lemma merge_product (subs part : list Bus) (fuels : list string) :
  NoDup (map bus_id subs) -> incl part subs ->
  merge (list_prod (map bus_id part) fuels) subs
  = flat_map (fun s => map (fun f => mkMerged (bus_id s) f (x s) (y s) (country s))
                           fuels) part.
Proof.
  intros Hnd. induction part as [|s part IH]; intros Hincl; [reflexivity|].
  simpl. unfold merge in *. rewrite flat_map_app. f_equal.
  - assert (Hs : In s subs) by (apply Hincl; now left).
    clear IH. induction fuels as [|f fuels IHf]; [reflexivity|].
    simpl. rewrite (filter_unique_label subs s Hnd Hs). simpl. now rewrite IHf.
  - apply IH. intros b Hb. apply Hincl. now right.
Qed.

Lemma length_flat_map_const {A B : Type} (f : A -> list B) (l : list A) (k : nat) :
  (forall a, List.length (f a) = k) ->
  List.length (flat_map f l) = List.length l * k.
Proof.
  intros H. induction l as [|a l IH]; [reflexivity|].
  simpl. rewrite length_app, H, IH. reflexivity.
Qed.

Lemma add_everywhere_powerplants_unfold (ppl : DataFrame) (subs : list Bus)
    (fuels : list string) :
  NoDup (map bus_id subs) ->
  exists df,
    add_everywhere_powerplants ppl subs fuels = Ok df
    /\ rows df
       = rows ppl
         ++ flat_map (fun s => map (everywhere_row (series_min (column DateIn ppl))
                                       (series_max (column DateOut ppl)) s) fuels)
                     subs.
Proof.
  intros Hnd. unfold add_everywhere_powerplants.
  rewrite concat_ignore_index. eexists. split; [reflexivity|].
  rewrite rows_reset_index, rows_app. f_equal.
  rewrite rows_reset.
  rewrite (merge_product subs subs fuels Hnd (incl_refl subs)).
  rewrite flat_map_concat_map, concat_map, map_map, <- flat_map_concat_map.
  apply flat_map_ext. intros s. now rewrite map_map.
Qed.

(** C6: for substations with pairwise different labels,
    add_everywhere_powerplants succeeds and appends to the rows of the base
    table exactly N x K rows, one for every substation and every fuel type of
    the list; each has Capacity 0.0, Set "PP", Technology equal to its
    Fueltype, lon, lat and Country taken from x, y and country of its
    substation, the Name "Automatically added everywhere-powerplant " followed
    by the fuel type, no Efficiency, and as DateIn and DateOut the least DateIn
    and the greatest DateOut of the base table (null when the base table has
    none). *)
Theorem add_everywhere_powerplants_rows (ppl : DataFrame) (substations : list Bus)
    (everywhere_powerplants : list string) :
  NoDup (map bus_id substations) ->
  exists df new,
    add_everywhere_powerplants ppl substations everywhere_powerplants = Ok df
    /\ rows df = rows ppl ++ new
    /\ List.length new = List.length substations * List.length everywhere_powerplants
    /\ Forall (fun r =>
                 Capacity r = Some 0%Q
                 /\ Set_ r = Some "PP"
                 /\ Technology r = Some (Fueltype r)
                 /\ Name r = ("Automatically added everywhere-powerplant "
                              ++ Fueltype r)%string
                 /\ Efficiency r = None
                 /\ least_of (column DateIn ppl) (DateIn r)
                 /\ greatest_of (column DateOut ppl) (DateOut r)
                 /\ In (Fueltype r) everywhere_powerplants
                 /\ exists s, In s substations
                              /\ lon r = Some (x s) /\ lat r = Some (y s)
                              /\ Country r = country s) new
    /\ (forall s f, In s substations -> In f everywhere_powerplants ->
                    exists r, In r new /\ Fueltype r = f
                              /\ lon r = Some (x s) /\ lat r = Some (y s)
                              /\ Country r = country s).
Proof.
  intros Hnd.
  destruct (add_everywhere_powerplants_unfold ppl substations
              everywhere_powerplants Hnd) as [df [Hok Hrows]].
  exists df. eexists. split; [exact Hok|]. split; [exact Hrows|].
  split; [|split].
  - apply length_flat_map_const. intros s. apply length_map.
  - apply Forall_forall. intros r Hr. apply in_flat_map in Hr.
    destruct Hr as [s [Hs Hr]]. apply in_map_iff in Hr.
    destruct Hr as [f [<- Hf]]. simpl.
    repeat split; try reflexivity.
    + apply series_min_least.
    + apply series_max_greatest.
    + exact Hf.
    + exists s. repeat split. exact Hs.
  - intros s f Hs Hf. eexists. split.
    + apply in_flat_map. exists s. split; [exact Hs|].
      apply in_map. exact Hf.
    + simpl. repeat split.
Qed.

Lemma add_everywhere_powerplants_rows_witness :
  NoDup (map bus_id one_substation)
  /\ exists df new,
      add_everywhere_powerplants gas_ocgt one_substation ["Coal"; "OCGT"] = Ok df
      /\ rows df = rows gas_ocgt ++ new
      /\ List.length new = 1 * 2.
Proof.
  assert (Hnd : NoDup (map bus_id one_substation)).
  { simpl. constructor; [intros []|constructor]. }
  split; [exact Hnd|].
  destruct (add_everywhere_powerplants_rows gas_ocgt one_substation
              ["Coal"; "OCGT"] Hnd) as [df [new [H1 [H2 [H3 _]]]]].
  exists df, new. repeat split; assumption.
Defined.

(** ** Bioenergy taken from OPSD *)

Lemma isin_In (v : string) (l : list string) : isin v l = true <-> In v l.
Proof.
  unfold isin. rewrite existsb_exists. split.
  - intros [u [Hu E]]. apply String.eqb_eq in E. now subst.
  - intros H. exists v. split; [exact H | apply String.eqb_refl].
Qed.

Lemma In_unique_from (v : string) (s seen : list string) :
  In v (unique_from seen s) <-> In v s /\ ~ In v seen.
Proof.
  revert seen. induction s as [|u s IH]; intros seen; simpl.
  - tauto.
  - destruct (existsb (String.eqb u) seen) eqn:E.
    + fold (isin u seen) in E. apply isin_In in E. rewrite IH.
      split; [tauto|]. intros [[->|H] Hn]; [contradiction | tauto].
    + assert (Hu : ~ In u seen).
      { intros H. apply isin_In in H. unfold isin in H. congruence. }
      simpl. rewrite IH. simpl.
      destruct (string_dec u v) as [->|Hne]; [tauto|]. tauto.
Qed.

Lemma In_unique (v : string) (s : list string) : In v (unique s) <-> In v s.
Proof. unfold unique. rewrite In_unique_from. simpl. tauto. Qed.

Lemma NoDup_unique_from (s seen : list string) : NoDup (unique_from seen s).
Proof.
  revert seen. induction s as [|u s IH]; intros seen; simpl; [constructor|].
  destruct (existsb (String.eqb u) seen); [apply IH|].
  constructor; [|apply IH].
  rewrite In_unique_from. simpl. tauto.
Qed.

(** C8: the bioenergy correction returns the rows of the primary table that
    are not (in a country of the filtered secondary rows and of Fueltype
    "Bioenergy"), in their order, followed by the filtered secondary rows:
    the rows of the secondary table with Fueltype "Bioenergy" and a Country of
    the target list, with Name set to "Biomass".  The countries looked up are
    the distinct countries of the filtered secondary rows.  The concatenation
    checks nothing and always succeeds. *)
Theorem correct_bioenergy_rows (ppl opsd : DataFrame) (countries : list string) :
  exists (pick keep : Row -> bool) (secondary : DataFrame)
         (available_countries : list string),
    (forall r, pick r = true <-> Fueltype r = "Bioenergy" /\ In (Country r) countries)
    /\ secondary = map (fun ir => (fst ir, with_Name "Biomass" (snd ir)))
                       (filter (fun ir => pick (snd ir)) opsd)
    /\ NoDup available_countries
    /\ (forall c, In c available_countries <-> In c (column Country secondary))
    /\ (forall r, keep r = true
                  <-> ~ (In (Country r) available_countries
                         /\ Fueltype r = "Bioenergy"))
    /\ correct_bioenergy ppl opsd countries
       = Ok (filter (fun ir => keep (snd ir)) ppl ++ secondary).
Proof.
  set (pick := fun r => isin (Country r) countries
                        && String.eqb (Fueltype r) "Bioenergy").
  set (secondary := assign_scalar with_Name "Biomass" (query_rows pick opsd)).
  set (available := unique (column Country secondary)).
  exists pick,
    (fun r => negb (isin (Country r) available
                    && String.eqb (Fueltype r) "Bioenergy")),
    secondary, available.
  split; [|split; [|split; [|split; [|split]]]].
  - intros r. unfold pick. rewrite andb_true_iff, isin_In, String.eqb_eq. tauto.
  - reflexivity.
  - apply NoDup_unique_from.
  - intros c. apply In_unique.
  - intros r. rewrite negb_true_iff, <- not_true_iff_false.
    rewrite andb_true_iff, isin_In, String.eqb_eq. tauto.
  - unfold correct_bioenergy, concat. cbn [List.concat andb].
    now rewrite app_nil_r.
Qed.

(** ** The renaming pass *)

Lemma key_eqb_eq (a b : group_key) : key_eqb a b = true <-> a = b.
Proof.
  destruct a as [[u|] f], b as [[v|] g]; unfold key_eqb; simpl.
  - rewrite andb_true_iff, !String.eqb_eq.
    split; [intros [-> ->]; reflexivity | intros [= -> ->]; now split].
  - split; discriminate.
  - split; discriminate.
  - rewrite String.eqb_eq. split; [intros ->; reflexivity | now intros [= ->]].
Qed.

Lemma key_eqb_refl (a : group_key) : key_eqb a a = true.
Proof. now apply key_eqb_eq. Qed.

Lemma key_eqb_sym (a b : group_key) : key_eqb a b = key_eqb b a.
Proof.
  destruct (key_eqb a b) eqn:E1, (key_eqb b a) eqn:E2; try reflexivity.
  - apply key_eqb_eq in E1. subst. rewrite key_eqb_refl in E2. discriminate.
  - apply key_eqb_eq in E2. subst. rewrite key_eqb_refl in E1. discriminate.
Qed.

Lemma dedup_names_from (seen : list group_key) (df : DataFrame) :
  (let cumcount := map (fun c => c + 1) (cumcount_from seen (column key_of df)) in
   assign with_Name df
     (where_ (column Name df)
             (map (fun c => Nat.eqb c 1) cumcount)
             (str_add (str_add_scalar (column Name df) " ") (map str cumcount))))
  = dedup_from seen df.
Proof.
  revert seen. induction df as [|[i r] df IH]; intros seen; [reflexivity|].
  simpl. f_equal. apply IH.
Qed.

Lemma dedup_names_traversal (df : DataFrame) : dedup_names df = dedup_from [] df.
Proof. apply (dedup_names_from [] df). Qed.

Lemma rename_first (r : Row) : rename 1 r = r.
Proof. now destruct r. Qed.

Lemma occurrence_head (r : Row) (l : list Row) : occurrence (r :: l) 0 r = 1.
Proof. unfold occurrence. simpl. now rewrite key_eqb_refl. Qed.

Lemma occurrence_tail (q r : Row) (l : list Row) (i : nat) :
  occurrence (q :: l) (S i) r
  = (if key_eqb (key_of q) (key_of r) then 1 else 0) + occurrence l i r.
Proof.
  unfold occurrence. cbn [firstn filter].
  now destruct (key_eqb (key_of q) (key_of r)).
Qed.

Lemma dedup_from_nth (df : DataFrame) :
  forall (seen : list group_key) (i : nat) (idx : Z) (r : Row),
    nth_error df i = Some (idx, r) ->
    nth_error (dedup_from seen df) i
    = Some (idx, rename (List.length (filter (key_eqb (key_of r)) seen)
                         + occurrence (rows df) i r) r).
Proof.
  induction df as [|[j q] df IH]; intros seen [|i] idx r H; simpl in H;
    try discriminate.
  - injection H as -> ->. cbn [dedup_from nth_error rows map snd].
    now rewrite occurrence_head.
  - cbn [dedup_from nth_error rows map snd].
    rewrite (IH (key_of q :: seen) i idx r H).
    fold (rows df). rewrite occurrence_tail. cbn [filter].
    rewrite (key_eqb_sym (key_of r) (key_of q)).
    destruct (key_eqb (key_of q) (key_of r)); cbn [List.length];
      match goal with
      | |- Some (_, rename ?a _) = Some (_, rename ?b _) =>
          replace a with b by lia; reflexivity
      end.
Qed.

Lemma occurrence_bounds (l : list Row) :
  forall (i : nat) (r : Row),
    nth_error l i = Some r ->
    1 <= occurrence l i r /\ occurrence l i r <= group_size l r.
Proof.
  induction l as [|q l IH]; intros [|i] r H; simpl in H; try discriminate.
  - injection H as ->. rewrite occurrence_head. unfold group_size. simpl.
    rewrite key_eqb_refl. simpl. lia.
  - rewrite occurrence_tail. specialize (IH i r H). unfold group_size in *.
    simpl. destruct (key_eqb (key_of q) (key_of r)); simpl; lia.
Qed.

Lemma length_dedup_from (df : DataFrame) (seen : list group_key) :
  List.length (dedup_from seen df) = List.length df.
Proof.
  revert seen. induction df as [|[i r] df IH]; intros seen; simpl;
    [reflexivity | now rewrite IH].
Qed.

Lemma dedup_from_keeps_bus (df : DataFrame) (seen : list group_key) :
  column key_of (dedup_from seen df) = column key_of df
  /\ index (dedup_from seen df) = index df.
Proof.
  revert seen. induction df as [|[i r] df IH]; intros seen; simpl;
    [now split|].
  destruct (IH (key_of r :: seen)) as [H1 H2]. split; f_equal; assumption.
Qed.

(** ** Plants without a bus *)

Lemma isnull_bus (ppl : DataFrame) :
  isnull (column bus ppl) = map (fun ir => negb (has_busb (snd ir))) ppl.
Proof.
  unfold isnull, column. rewrite map_map. apply map_ext.
  intros [i r]. unfold has_busb. simpl. now destruct (bus r).
Qed.

Lemma sum_map {A : Type} (f : A -> bool) (l : list A) :
  sum (map f l) = List.length (filter f l).
Proof.
  induction l as [|a l IH]; simpl; [reflexivity|].
  destruct (f a); simpl; now rewrite IH.
Qed.

Lemma any_map {A : Type} (f : A -> bool) (l : list A) :
  any (map f l) = negb (Nat.eqb (List.length (filter f l)) 0).
Proof.
  induction l as [|a l IH]; simpl; [reflexivity|].
  destruct (f a); simpl; [reflexivity | exact IH].
Qed.

Lemma filter_all {A : Type} (f : A -> bool) (l : list A) :
  List.length (filter (fun a => negb (f a)) l) = 0 -> filter f l = l.
Proof.
  induction l as [|a l IH]; simpl; [reflexivity|].
  destruct (f a); simpl; [intros H; f_equal; now apply IH | discriminate].
Qed.

Lemma has_busb_has_bus (r : Row) : has_busb r = true <-> has_bus r.
Proof.
  unfold has_busb, has_bus. destruct (bus r); split; congruence.
Qed.

Lemma drop_null_bus_unfold (ppl : DataFrame) (t : Trace) :
  let dropped := List.length (filter (fun ir => negb (has_busb (snd ir))) ppl) in
  drop_null_bus ppl t
  = (Ok (filter (fun ir => has_busb (snd ir)) ppl),
     if Nat.eqb dropped 0 then t else t ++ [no_close_bus dropped]).
Proof.
  cbv zeta. unfold drop_null_bus. rewrite isnull_bus, any_map, sum_map.
  destruct (Nat.eqb _ 0) eqn:E; cbn [negb].
  - apply Nat.eqb_eq in E. unfold ret.
    now rewrite (filter_all (fun ir => has_busb (snd ir)) ppl E).
  - unfold bind, emit, ret, no_close_bus, series_not.
    rewrite map_map, select_map. do 2 f_equal.
    apply filter_ext. intros ir. apply negb_involutive.
Qed.

Lemma length_filter_split {A : Type} (f : A -> bool) (l : list A) :
  List.length (filter f l) + List.length (filter (fun a => negb (f a)) l)
  = List.length l.
Proof.
  induction l as [|a l IH]; simpl; [reflexivity|].
  destruct (f a); simpl; lia.
Qed.

Lemma has_bus_same_keys (a b : DataFrame) :
  column key_of a = column key_of b ->
  Forall has_bus (rows b) -> Forall has_bus (rows a).
Proof.
  revert b. induction a as [|[i r] a IH]; intros [|[j q] b] E H;
    try discriminate; [constructor|].
  unfold column in E. cbn [map snd] in E. unfold key_of at 1 3 in E.
  injection E as Hb _ E. cbn [rows map snd] in *.
  inversion H as [|? ? Hq Hrest]; subst. constructor.
  - unfold has_bus in *. now rewrite Hb.
  - now apply (IH b).
Qed.

Lemma finalize_unfold (ppl : DataFrame) (t : Trace) :
  finalize ppl t
  = (Ok (dedup_names (filter (fun ir => has_busb (snd ir)) ppl)),
     snd (drop_null_bus ppl t)).
Proof.
  unfold finalize, bind. rewrite drop_null_bus_unfold. reflexivity.
Qed.

Lemma bind_ok {A B : Type} (m : M A) (k : A -> M B) (t : Trace) (b : B) :
  fst (bind m k t) = Ok b ->
  exists a t', m t = (Ok a, t') /\ fst (k a t') = Ok b.
Proof.
  unfold bind. destruct (m t) as [[a|e] t']; simpl; intros H.
  - now exists a, t'.
  - discriminate H.
Qed.

Lemma finalize_has_bus (ppl : DataFrame) :
  Forall has_bus (rows (dedup_names (filter (fun ir => has_busb (snd ir)) ppl))).
Proof.
  rewrite dedup_names_traversal.
  apply (has_bus_same_keys _ (filter (fun ir => has_busb (snd ir)) ppl)).
  - apply dedup_from_keeps_bus.
  - unfold rows. apply Forall_map. apply Forall_forall.
    intros ir Hir. apply filter_In in Hir. now apply has_busb_has_bus.
Qed.

(** C9: of the table that comes back from the bus assignment, the rows with a
    null bus are removed and the rows with a bus are kept, in their order; if
    at least one row is removed, one warning is logged and the count it
    reports is the number of rows with a null bus, otherwise nothing is
    logged.  The renaming pass that follows keeps the buses, so every row of
    the output of the main block has a bus. *)
Theorem drop_null_bus_rows (ppl : DataFrame) (t : Trace) :
  let dropped := List.length (filter (fun ir => negb (has_busb (snd ir))) ppl) in
  let kept := filter (fun ir => has_busb (snd ir)) ppl in
  drop_null_bus ppl t
  = (Ok kept, if Nat.eqb dropped 0 then t else t ++ [no_close_bus dropped])
  /\ (forall ir, In ir kept <-> In ir ppl /\ has_bus (snd ir))
  /\ (forall ir, In ir ppl -> bus (snd ir) = None -> ~ In ir kept)
  /\ List.length kept + dropped = List.length ppl
  /\ (exists out, fst (finalize ppl t) = Ok out
                  /\ List.length out = List.length kept
                  /\ Forall has_bus (rows out))
  /\ (forall fs query_pred map_country_bus powerplants opsd buses countries
             powerplants_filter custom_powerplants_file custom_powerplants
             everywhere_powerplants t0 out,
         fst (main fs query_pred map_country_bus powerplants opsd buses countries
                powerplants_filter custom_powerplants_file custom_powerplants
                everywhere_powerplants t0) = Ok out ->
         Forall has_bus (rows out)).
Proof.
  cbv zeta. split; [apply drop_null_bus_unfold|].
  split; [|split; [|split; [|split]]].
  - intros ir. rewrite filter_In, has_busb_has_bus. tauto.
  - intros ir _ Hnull Hin. apply filter_In in Hin.
    destruct Hin as [_ Hb]. unfold has_busb in Hb. rewrite Hnull in Hb.
    discriminate Hb.
  - apply length_filter_split.
  - eexists. rewrite finalize_unfold. split; [reflexivity|]. split.
    + rewrite dedup_names_traversal. apply length_dedup_from.
    + apply finalize_has_bus.
  - intros fs qp mcb powerplants opsd buses countries pf cf cp ep t0 out H.
    unfold main in H.
    apply bind_ok in H. destruct H as [p1 [t1 [_ H]]].
    apply bind_ok in H. destruct H as [p2 [t2 [_ H]]].
    apply bind_ok in H. destruct H as [p3 [t3 [_ H]]].
    apply bind_ok in H. destruct H as [u [t4 [_ H]]].
    apply bind_ok in H. destruct H as [p4 [t5 [_ H]]].
    apply bind_ok in H. destruct H as [p5 [t6 [Hfin H]]].
    rewrite finalize_unfold in Hfin. injection Hfin as <- _.
    unfold ret in H. simpl in H. injection H as <-.
    rewrite rows_reset_index. apply finalize_has_bus.
Qed.

(** The written example of the log: two of three plants have no bus. *)
Example finalize_two_without_bus :
  run (finalize two_without_bus)
  = (Ok [(1%Z, plant "P2" "Coal" None "DE" (Some "DE0 1"))],
     [Warning ("Couldn't find close bus for 2 powerplants. "
               ++ "Removing them from the powerplants list.")]).
Proof. reflexivity. Qed.

(** C5: on a table whose rows all have a bus, the renaming pass leaves the
    first row of every (bus, Fueltype) group as it is and appends to the Name
    of the k-th row of its group (k at least 2, rows counted in the order of
    the table) a space and the decimal numeral of k; nothing else changes and
    rows that are alone in their group are unchanged.  Three plants named
    "Plant A" of one bus and Fueltype "Coal" come out as "Plant A",
    "Plant A 2", "Plant A 3". *)
Theorem dedup_names_ordinal (ppl : DataFrame) :
  Forall has_bus (rows ppl) ->
  (forall i idx r,
      nth_error ppl i = Some (idx, r) ->
      let k := occurrence (rows ppl) i r in
      1 <= k
      /\ exists r', nth_error (dedup_names ppl) i = Some (idx, r')
                    /\ (k = 1 -> r' = r)
                    /\ (2 <= k ->
                        r' = with_Name ((Name r ++ " ") ++ str k)%string r)
                    /\ (group_size (rows ppl) r = 1 -> r' = r))
  /\ List.length (dedup_names ppl) = List.length ppl
  /\ column Name (dedup_names three_at_one_bus)
     = ["Plant A"; "Plant A 2"; "Plant A 3"].
Proof.
  intros _. split; [|split].
  - intros i idx r H. cbv zeta.
    assert (Hr : nth_error (rows ppl) i = Some r).
    { unfold rows. rewrite nth_error_map, H. reflexivity. }
    destruct (occurrence_bounds (rows ppl) i r Hr) as [Hlo Hhi].
    split; [exact Hlo|].
    eexists. split.
    + rewrite dedup_names_traversal.
      rewrite (dedup_from_nth ppl [] i idx r H). reflexivity.
    + cbn [filter List.length Nat.add]. split; [|split].
      * intros ->. apply rename_first.
      * intros Hk. unfold rename.
        destruct (Nat.eqb_spec (occurrence (rows ppl) i r) 1); [lia|reflexivity].
      * intros Hg. replace (occurrence (rows ppl) i r) with 1 by lia.
        apply rename_first.
  - rewrite dedup_names_traversal. apply length_dedup_from.
  - reflexivity.
Qed.

Lemma dedup_names_ordinal_witness :
  Forall has_bus (rows three_at_one_bus)
  /\ exists r', nth_error (dedup_names three_at_one_bus) 2 = Some (2%Z, r')
                /\ Name r' = "Plant A 3".
Proof.
  assert (Hb : Forall has_bus (rows three_at_one_bus)).
  { repeat constructor; discriminate. }
  split; [exact Hb|].
  destruct (proj1 (dedup_names_ordinal three_at_one_bus Hb) 2 2%Z
              (plant "Plant A" "Coal" None "DE" (Some "DE0 1")) eq_refl)
    as [_ [r' [Hnth [_ [Hk _]]]]].
  exists r'. split; [exact Hnth|].
  rewrite Hk; [reflexivity|].
  vm_compute. lia.
Defined.

(** C4, evaluated on two plants of one bus and one fuel type of which the
    first is named "Plant A 2" and the second "Plant A": both rows stay in one
    group and both come out with the Name "Plant A 2". *)
Theorem dedup_names_collision :
  column key_of (dedup_names named_like_a_suffix)
  = [(Some "DE0 1", "Coal"); (Some "DE0 1", "Coal")]
  /\ column Name named_like_a_suffix = ["Plant A 2"; "Plant A"]
  /\ column Name (dedup_names named_like_a_suffix) = ["Plant A 2"; "Plant A 2"]
  /\ ~ NoDup (column Name (dedup_names named_like_a_suffix)).
Proof.
  repeat split.
  intros H. inversion H as [|n l Hnotin _]; subst.
  apply Hnotin. now left.
Qed.

(** ** Rows of one group with the same name *)

Lemma length_append (a b : string) :
  String.length (a ++ b) = String.length a + String.length b.
Proof. induction a as [|c a IH]; simpl; [reflexivity | now rewrite IH]. Qed.

Lemma append_cancel_l (a b c : string) : (a ++ b = a ++ c)%string -> b = c.
Proof.
  induction a as [|ch a IH]; simpl; intros H; [exact H|].
  injection H as H. now apply IH.
Qed.

Lemma str_injective (m n : nat) : str m = str n -> m = n.
Proof.
  unfold str. intros H.
  assert (E : Some (Nat.to_uint m) = Some (Nat.to_uint n)).
  { rewrite <- !NilEmpty.usu. now rewrite H. }
  injection E as E.
  rewrite <- (DecimalNat.Unsigned.of_to m), <- (DecimalNat.Unsigned.of_to n).
  now rewrite E.
Qed.

Lemma occurrence_same_key (l : list Row) (i : nat) (a b : Row) :
  key_of a = key_of b -> occurrence l i a = occurrence l i b.
Proof. unfold occurrence. now intros ->. Qed.

Lemma occurrence_increases (l : list Row) :
  forall (i j : nat) (a b : Row),
    i < j -> nth_error l i = Some a -> nth_error l j = Some b ->
    key_of a = key_of b ->
    occurrence l i b < occurrence l j b.
Proof.
  induction l as [|q l IH]; intros i j a b Hlt Hi Hj Hk;
    [destruct i; discriminate|].
  destruct j as [|j]; [lia|]. simpl in Hj.
  rewrite (occurrence_tail q b l j).
  destruct i as [|i].
  - simpl in Hi. injection Hi as ->.
    rewrite <- (occurrence_same_key (a :: l) 0 a b Hk), occurrence_head.
    rewrite Hk, key_eqb_refl.
    destruct (occurrence_bounds l j b Hj) as [Hlo _]. lia.
  - simpl in Hi. rewrite (occurrence_tail q b l i).
    assert (i < j) as Hij by lia.
    specialize (IH i j a b Hij Hi Hj Hk). lia.
Qed.

(** Two rows of one (bus, Fueltype) group that enter the renaming pass with
    the same Name leave it with different Names. *)
Lemma dedup_names_separates_equal_names (ppl : DataFrame) (i j : nat)
    (ia ib : Z) (a b a' b' : Row) :
  i < j ->
  nth_error ppl i = Some (ia, a) -> nth_error ppl j = Some (ib, b) ->
  key_of a = key_of b -> Name a = Name b ->
  nth_error (dedup_names ppl) i = Some (ia, a') ->
  nth_error (dedup_names ppl) j = Some (ib, b') ->
  Name a' <> Name b'.
Proof.
  intros Hlt Hi Hj Hk Hn Hi' Hj'.
  rewrite dedup_names_traversal in Hi', Hj'.
  rewrite (dedup_from_nth ppl [] i ia a Hi) in Hi'.
  rewrite (dedup_from_nth ppl [] j ib b Hj) in Hj'.
  cbn [filter List.length Nat.add] in Hi', Hj'.
  injection Hi' as <-. injection Hj' as <-.
  assert (Ha : nth_error (rows ppl) i = Some a)
    by (unfold rows; now rewrite nth_error_map, Hi).
  assert (Hb : nth_error (rows ppl) j = Some b)
    by (unfold rows; now rewrite nth_error_map, Hj).
  pose proof (occurrence_increases (rows ppl) i j a b Hlt Ha Hb Hk) as Hinc.
  rewrite <- (occurrence_same_key (rows ppl) i a b Hk) in Hinc.
  destruct (occurrence_bounds (rows ppl) i a Ha) as [Hlo _].
  set (ka := occurrence (rows ppl) i a) in *.
  set (kb := occurrence (rows ppl) j b) in *.
  unfold rename. simpl.
  destruct (Nat.eqb_spec kb 1) as [E|_]; [lia|].
  destruct (Nat.eqb_spec ka 1) as [_|Hka].
  - rewrite Hn. intros H.
    apply (f_equal String.length) in H. rewrite !length_append in H.
    simpl in H. lia.
  - rewrite Hn. intros H. apply append_cancel_l in H.
    apply str_injective in H. lia.
Qed.

(** * Further properties of the script *)

(** ** The relabelling passes *)

(** replace_natural_gas_fueltype sets the Fueltype to "Natural Gas" on the
    rows whose Technology is OCGT or CCGT and leaves every other row, rows
    with a null Technology included, with its Fueltype. *)
Theorem replace_natural_gas_fueltype_cells (df : DataFrame) :
  Forall2 (fun r f' =>
             (gas_turbine (Technology r) -> f' = "Natural Gas")
             /\ (~ gas_turbine (Technology r) -> f' = Fueltype r))
          (rows df) (replace_natural_gas_fueltype df).
Proof.
  rewrite replace_natural_gas_fueltype_rowwise. unfold rows.
  apply Forall2_map_both. intros [i r] _. cbn [snd]. unfold fueltype_of.
  destruct (opt_eqb (Technology r) "OCGT" || opt_eqb (Technology r) "CCGT") eqn:E.
  - apply gas_turbine_bool in E. split; [reflexivity | contradiction].
  - split; [|reflexivity]. intros H. apply gas_turbine_bool in H. congruence.
Qed.

(** The two relabelling passes keep the index, the number of rows and every
    column other than Technology and Fueltype. *)
Theorem canonicalize_keeps_other_columns (df : DataFrame) :
  index (canonicalize df) = index df
  /\ List.length (canonicalize df) = List.length df
  /\ column Name (canonicalize df) = column Name df
  /\ column Set_ (canonicalize df) = column Set_ df
  /\ column Country (canonicalize df) = column Country df
  /\ column Capacity (canonicalize df) = column Capacity df
  /\ column Efficiency (canonicalize df) = column Efficiency df
  /\ column DateIn (canonicalize df) = column DateIn df
  /\ column DateOut (canonicalize df) = column DateOut df
  /\ column lat (canonicalize df) = column lat df
  /\ column lon (canonicalize df) = column lon df
  /\ column bus (canonicalize df) = column bus df
  /\ column passthrough (canonicalize df) = column passthrough df.
Proof.
  rewrite canonicalize_rowwise. unfold index, column.
  rewrite length_map, !map_map.
  repeat split; apply map_ext; intros [i r]; reflexivity.
Qed.

(** ** The custom plants, when the query argument is truthy *)

Lemma rows_query_rows (p : Row -> bool) (df : DataFrame) :
  rows (query_rows p df) = filter p (rows df).
Proof.
  unfold query_rows, rows. induction df as [|[i r] df IH]; simpl; [reflexivity|].
  destruct (p r); simpl; now rewrite IH.
Qed.

Lemma truthy_nonempty (expr : string) : expr <> "" -> truthy (PyStr expr) = true.
Proof.
  intros H. simpl. apply negb_true_iff. now apply String.eqb_neq.
Qed.

(** With a truthy query argument that is not a string (True in the
    configuration) the custom file is read once and all its rows are appended
    after the rows of the table; the result is labelled 0..n-1. *)
Theorem add_custom_powerplants_appends_all
    (fs : string -> option DataFrame) (query_pred : string -> option (Row -> bool))
    (ppl add : DataFrame) (custom_powerplants : string) (custom_ppl_query : PyVal)
    (t : Trace) :
  truthy custom_ppl_query = true ->
  (forall expr, custom_ppl_query <> PyStr expr) ->
  fs custom_powerplants = Some add ->
  exists df,
    add_custom_powerplants fs query_pred ppl custom_powerplants custom_ppl_query t
    = (Ok df, t ++ [ReadCsv custom_powerplants])
    /\ rows df = rows ppl ++ rows add
    /\ index df = default_index (List.length ppl + List.length add).
Proof.
  intros Hq Hstr Hfs. exists (reset_index (ppl ++ add)).
  rewrite (add_custom_powerplants_truthy fs query_pred ppl custom_powerplants
             custom_ppl_query t Hq), Hfs.
  rewrite rows_reset_index, index_reset_index, rows_app, length_app.
  repeat split.
  destruct custom_ppl_query as [|b|z|expr]; try reflexivity.
  now destruct (Hstr expr).
Qed.

Lemma add_custom_powerplants_appends_all_witness :
  truthy (PyBool true) = true
  /\ (forall expr, PyBool true <> PyStr expr)
  /\ custom_two_countries "data/custom_powerplants.csv" = Some two_countries
  /\ exists df,
      add_custom_powerplants custom_two_countries no_queries coal_plant
        "data/custom_powerplants.csv" (PyBool true) []
      = (Ok df, [] ++ [ReadCsv "data/custom_powerplants.csv"])
      /\ rows df = rows coal_plant ++ rows two_countries
      /\ index df = default_index (1 + 2).
Proof.
  split; [reflexivity|]. split; [discriminate|]. split; [reflexivity|].
  apply (add_custom_powerplants_appends_all custom_two_countries no_queries
           coal_plant two_countries "data/custom_powerplants.csv" (PyBool true) []).
  - reflexivity.
  - discriminate.
  - reflexivity.
Defined.

(** With a non-empty query expression that pandas accepts, the expression
    selects among the rows of the custom file only: every row of the table is
    kept, followed by the custom rows that satisfy the expression. *)
Theorem add_custom_powerplants_filters_custom_only
    (fs : string -> option DataFrame) (query_pred : string -> option (Row -> bool))
    (ppl add : DataFrame) (custom_powerplants expr : string) (p : Row -> bool)
    (t : Trace) :
  expr <> "" ->
  query_pred expr = Some p ->
  fs custom_powerplants = Some add ->
  exists df,
    add_custom_powerplants fs query_pred ppl custom_powerplants (PyStr expr) t
    = (Ok df, t ++ [ReadCsv custom_powerplants])
    /\ rows df = rows ppl ++ filter p (rows add).
Proof.
  intros He Hp Hfs. exists (reset_index (ppl ++ query_rows p add)).
  rewrite (add_custom_powerplants_truthy fs query_pred ppl custom_powerplants
             (PyStr expr) t (truthy_nonempty expr He)), Hfs, Hp.
  split; [reflexivity|].
  now rewrite rows_reset_index, rows_app, rows_query_rows.
Qed.

Lemma add_custom_powerplants_filters_custom_only_witness :
  "Country in ['DE']" <> ""
  /\ only_germany "Country in ['DE']" = Some (fun r => String.eqb (Country r) "DE")
  /\ custom_two_countries "data/custom_powerplants.csv" = Some two_countries
  /\ exists df,
      add_custom_powerplants custom_two_countries only_germany coal_plant
        "data/custom_powerplants.csv" (PyStr "Country in ['DE']") []
      = (Ok df, [] ++ [ReadCsv "data/custom_powerplants.csv"])
      /\ rows df = rows coal_plant
                   ++ filter (fun r => String.eqb (Country r) "DE") (rows two_countries).
Proof.
  split; [discriminate|]. split; [reflexivity|]. split; [reflexivity|].
  apply (add_custom_powerplants_filters_custom_only custom_two_countries
           only_germany coal_plant two_countries "data/custom_powerplants.csv"
           "Country in ['DE']" (fun r => String.eqb (Country r) "DE") []).
  - discriminate.
  - reflexivity.
  - reflexivity.
Defined.

(** With a truthy query argument and no custom file, the read is attempted
    and the function raises FileNotFoundError. *)
Theorem add_custom_powerplants_missing_file
    (fs : string -> option DataFrame) (query_pred : string -> option (Row -> bool))
    (ppl : DataFrame) (custom_powerplants : string) (custom_ppl_query : PyVal)
    (t : Trace) :
  truthy custom_ppl_query = true ->
  fs custom_powerplants = None ->
  add_custom_powerplants fs query_pred ppl custom_powerplants custom_ppl_query t
  = (Raise (FileNotFoundError custom_powerplants),
     t ++ [ReadCsv custom_powerplants]).
Proof.
  intros Hq Hfs.
  now rewrite (add_custom_powerplants_truthy fs query_pred ppl custom_powerplants
                 custom_ppl_query t Hq), Hfs.
Qed.

Lemma add_custom_powerplants_missing_file_witness :
  truthy (PyBool true) = true
  /\ no_files "data/custom_powerplants.csv" = None
  /\ add_custom_powerplants no_files no_queries coal_plant
       "data/custom_powerplants.csv" (PyBool true) []
     = (Raise (FileNotFoundError "data/custom_powerplants.csv"),
        [] ++ [ReadCsv "data/custom_powerplants.csv"]).
Proof.
  split; [reflexivity|]. split; [reflexivity|].
  apply (add_custom_powerplants_missing_file no_files no_queries coal_plant
           "data/custom_powerplants.csv" (PyBool true) []); reflexivity.
Defined.

(** With a non-empty query expression that pandas rejects, the custom file is
    read first and the function then raises the query error; nothing is
    appended. *)
Theorem add_custom_powerplants_rejected_query
    (fs : string -> option DataFrame) (query_pred : string -> option (Row -> bool))
    (ppl add : DataFrame) (custom_powerplants expr : string) (t : Trace) :
  expr <> "" ->
  fs custom_powerplants = Some add ->
  query_pred expr = None ->
  add_custom_powerplants fs query_pred ppl custom_powerplants (PyStr expr) t
  = (Raise (QueryError expr), t ++ [ReadCsv custom_powerplants]).
Proof.
  intros He Hfs Hp.
  now rewrite (add_custom_powerplants_truthy fs query_pred ppl custom_powerplants
                 (PyStr expr) t (truthy_nonempty expr He)), Hfs, Hp.
Qed.

Lemma add_custom_powerplants_rejected_query_witness :
  "Country in" <> ""
  /\ custom_two_countries "data/custom_powerplants.csv" = Some two_countries
  /\ only_germany "Country in" = None
  /\ add_custom_powerplants custom_two_countries only_germany coal_plant
       "data/custom_powerplants.csv" (PyStr "Country in") []
     = (Raise (QueryError "Country in"),
        [] ++ [ReadCsv "data/custom_powerplants.csv"]).
Proof.
  split; [discriminate|]. split; [reflexivity|]. split; [reflexivity|].
  apply (add_custom_powerplants_rejected_query custom_two_countries only_germany
           coal_plant two_countries "data/custom_powerplants.csv" "Country in" []).
  - discriminate.
  - reflexivity.
  - reflexivity.
Defined.

(** ** Nothing to place everywhere *)

Lemma list_prod_nil_r {A B : Type} (l : list A) : list_prod l (@nil B) = [].
Proof. induction l as [|a l IH]; simpl; [reflexivity | exact IH]. Qed.

(** With an empty list of fuel types, or with no substation,
    add_everywhere_powerplants adds no row: it returns the rows of the table,
    relabelled 0..n-1. *)
Theorem add_everywhere_powerplants_nothing_to_add (ppl : DataFrame)
    (substations : list Bus) (everywhere_powerplants : list string) :
  add_everywhere_powerplants ppl substations [] = Ok (reset_index ppl)
  /\ add_everywhere_powerplants ppl [] everywhere_powerplants = Ok (reset_index ppl)
  /\ rows (reset_index ppl) = rows ppl
  /\ index (reset_index ppl) = default_index (List.length ppl).
Proof.
  split; [|split; [|split]].
  - unfold add_everywhere_powerplants.
    rewrite list_prod_nil_r, concat_ignore_index. cbn [merge flat_map map
      List.length default_index seq combine]. now rewrite app_nil_r.
  - unfold add_everywhere_powerplants. rewrite concat_ignore_index.
    cbn [map list_prod merge flat_map List.length default_index seq combine].
    now rewrite app_nil_r.
  - apply rows_reset_index.
  - apply index_reset_index.
Qed.

(** ** The bioenergy correction *)

Lemma correct_bioenergy_unfold (ppl opsd : DataFrame) (countries : list string) :
  let secondary :=
    assign_scalar with_Name "Biomass"
      (query_rows (fun r => isin (Country r) countries
                            && String.eqb (Fueltype r) "Bioenergy") opsd) in
  correct_bioenergy ppl opsd countries
  = Ok (query_rows
          (fun r => negb (isin (Country r) (unique (column Country secondary))
                          && String.eqb (Fueltype r) "Bioenergy")) ppl
        ++ secondary).
Proof.
  cbv zeta. unfold correct_bioenergy, concat. cbn [List.concat andb].
  now rewrite app_nil_r.
Qed.

Lemma filter_none {A : Type} (f : A -> bool) (l : list A) :
  (forall a, In a l -> f a = false) -> filter f l = [].
Proof.
  induction l as [|a l IH]; intros H; simpl; [reflexivity|].
  rewrite (H a (or_introl eq_refl)). apply IH. intros b Hb. apply H. now right.
Qed.

Lemma filter_every {A : Type} (f : A -> bool) (l : list A) :
  (forall a, In a l -> f a = true) -> filter f l = l.
Proof.
  induction l as [|a l IH]; intros H; simpl; [reflexivity|].
  rewrite (H a (or_introl eq_refl)). f_equal. apply IH.
  intros b Hb. apply H. now right.
Qed.

(** When OPSD has no bioenergy row for a target country, the correction
    returns the table as it is, index included. *)
Theorem correct_bioenergy_nothing_to_correct (ppl opsd : DataFrame)
    (countries : list string) :
  (forall ir, In ir opsd ->
              ~ (Fueltype (snd ir) = "Bioenergy" /\ In (Country (snd ir)) countries)) ->
  correct_bioenergy ppl opsd countries = Ok ppl.
Proof.
  intros H. rewrite correct_bioenergy_unfold.
  assert (E : query_rows (fun r => isin (Country r) countries
                                   && String.eqb (Fueltype r) "Bioenergy") opsd
              = []).
  { apply filter_none. intros ir Hir. specialize (H ir Hir).
    destruct (isin (Country (snd ir)) countries) eqn:E1; [|reflexivity].
    destruct (String.eqb_spec (Fueltype (snd ir)) "Bioenergy") as [E2|E2];
      [|reflexivity].
    exfalso. apply H. split; [exact E2 | now apply isin_In]. }
  rewrite E. cbn [assign_scalar map column unique unique_from].
  rewrite app_nil_r. unfold query_rows. now rewrite filter_every.
Qed.

Lemma correct_bioenergy_nothing_to_correct_witness :
  (forall ir, In ir coal_plant ->
              ~ (Fueltype (snd ir) = "Bioenergy" /\ In (Country (snd ir)) ["DE"]))
  /\ correct_bioenergy gas_ocgt coal_plant ["DE"] = Ok gas_ocgt.
Proof.
  assert (H : forall ir, In ir coal_plant ->
                         ~ (Fueltype (snd ir) = "Bioenergy"
                            /\ In (Country (snd ir)) ["DE"])).
  { intros ir [<-|[]] [Hf _]. discriminate Hf. }
  split; [exact H|].
  apply (correct_bioenergy_nothing_to_correct gas_ocgt coal_plant ["DE"] H).
Defined.

Lemma covered_country_available (opsd : DataFrame) (countries : list string)
    (s : Z * Row) :
  In s opsd -> Fueltype (snd s) = "Bioenergy" -> In (Country (snd s)) countries ->
  isin (Country (snd s))
    (unique (column Country
               (assign_scalar with_Name "Biomass"
                  (query_rows (fun r => isin (Country r) countries
                                        && String.eqb (Fueltype r) "Bioenergy")
                              opsd))))
  = true.
Proof.
  intros Hs Hf Hc. apply isin_In, In_unique.
  unfold column, assign_scalar, query_rows. rewrite map_map.
  apply in_map_iff. exists s. split; [reflexivity|].
  apply filter_In. split; [exact Hs|].
  apply andb_true_iff. split; [now apply isin_In | now apply String.eqb_eq].
Qed.

Lemma length_filter_map {A B : Type} (f : A -> B) (q : B -> bool) (l : list A) :
  List.length (filter q (map f l)) = List.length (filter (fun a => q (f a)) l).
Proof.
  induction l as [|a l IH]; simpl; [reflexivity|].
  destruct (q (f a)); simpl; now rewrite IH.
Qed.

Lemma filter_filter_implied {A : Type} (q pick : A -> bool) (l : list A) :
  (forall a, q a = true -> pick a = true) ->
  filter q (filter pick l) = filter q l.
Proof.
  intros H. induction l as [|a l IH]; simpl; [reflexivity|].
  destruct (pick a) eqn:Ep; simpl.
  - destruct (q a); now rewrite IH.
  - destruct (q a) eqn:Eq; [|exact IH].
    apply H in Eq. congruence.
Qed.

(** After the correction the table is rows kept from the first table followed
    by rows taken from OPSD and named "Biomass".  No kept row is a bioenergy
    row of a target country for which OPSD has a bioenergy row, and for every
    such country the result holds exactly as many bioenergy rows as OPSD does:
    bioenergy of a covered country comes from OPSD only. *)
Theorem correct_bioenergy_supersedes (ppl opsd : DataFrame) (countries : list string) :
  exists kept secondary,
    correct_bioenergy ppl opsd countries = Ok (kept ++ secondary)
    /\ (forall ir, In ir kept ->
                   In ir ppl
                   /\ ~ (Fueltype (snd ir) = "Bioenergy"
                         /\ In (Country (snd ir)) countries
                         /\ exists s, In s opsd
                                      /\ Fueltype (snd s) = "Bioenergy"
                                      /\ Country (snd s) = Country (snd ir)))
    /\ (forall ir, In ir secondary ->
                   Name (snd ir) = "Biomass"
                   /\ exists s, In s opsd
                                /\ ir = (fst s, with_Name "Biomass" (snd s)))
    /\ (forall c,
           In c countries ->
           (exists s, In s opsd /\ Fueltype (snd s) = "Bioenergy"
                      /\ Country (snd s) = c) ->
           List.length
             (filter (fun ir => String.eqb (Fueltype (snd ir)) "Bioenergy"
                                && String.eqb (Country (snd ir)) c)
                     (kept ++ secondary))
           = List.length
               (filter (fun ir => String.eqb (Fueltype (snd ir)) "Bioenergy"
                                  && String.eqb (Country (snd ir)) c)
                       opsd)).
Proof.
  eexists. eexists. split; [apply correct_bioenergy_unfold|].
  assert (Hkept : forall ir,
             In ir (query_rows
                      (fun r => negb (isin (Country r)
                                        (unique (column Country
                                           (assign_scalar with_Name "Biomass"
                                              (query_rows
                                                 (fun r => isin (Country r) countries
                                                           && String.eqb (Fueltype r)
                                                                "Bioenergy")
                                                 opsd))))
                                      && String.eqb (Fueltype r) "Bioenergy")) ppl) ->
             In ir ppl
             /\ ~ (Fueltype (snd ir) = "Bioenergy"
                   /\ In (Country (snd ir)) countries
                   /\ exists s, In s opsd /\ Fueltype (snd s) = "Bioenergy"
                                /\ Country (snd s) = Country (snd ir))).
  { intros ir Hir. unfold query_rows at 1 in Hir. apply filter_In in Hir.
    destruct Hir as [Hin Hkeep]. split; [exact Hin|].
    intros [Hf [Hc [s [Hs [Hsf Hsc]]]]].
    apply negb_true_iff, andb_false_iff in Hkeep. destruct Hkeep as [Hk|Hk].
    - rewrite <- Hsc in Hk, Hc.
      rewrite (covered_country_available opsd countries s Hs Hsf Hc) in Hk.
      discriminate Hk.
    - apply String.eqb_neq in Hk. contradiction. }
  split; [exact Hkept|]. split.
  - intros ir Hir. unfold assign_scalar in Hir. apply in_map_iff in Hir.
    destruct Hir as [u [<- Hu]]. split; [reflexivity|].
    exists u. split; [|reflexivity].
    unfold query_rows in Hu. now apply filter_In in Hu.
  - intros c Hc [s [Hs [Hsf Hsc]]].
    rewrite filter_app, length_app. rewrite (filter_none _ (query_rows _ ppl)).
    + cbn [List.length Nat.add]. unfold assign_scalar.
      rewrite length_filter_map. cbn [snd]. unfold query_rows.
      rewrite filter_filter_implied; [reflexivity|].
      intros ir Hq. cbn [with_Name Fueltype Country] in Hq.
      apply andb_true_iff in Hq. destruct Hq as [Hf Hcc].
      apply String.eqb_eq in Hcc. apply andb_true_iff. split; [|exact Hf].
      apply isin_In. now rewrite Hcc.
    + intros ir Hir. apply Hkept in Hir. destruct Hir as [_ Hno].
      apply not_true_iff_false. intros Hq.
      apply andb_true_iff in Hq. destruct Hq as [Hf Hcc].
      apply String.eqb_eq in Hf. apply String.eqb_eq in Hcc.
      apply Hno. split; [exact Hf|]. split; [now rewrite Hcc|].
      exists s. repeat split; try assumption. now rewrite Hcc.
Qed.

Lemma correct_bioenergy_supersedes_witness :
  In "DE" ["DE"]
  /\ (exists s, In s opsd_biomass /\ Fueltype (snd s) = "Bioenergy"
                /\ Country (snd s) = "DE")
  /\ exists kept secondary,
      correct_bioenergy bio_primary opsd_biomass ["DE"] = Ok (kept ++ secondary)
      /\ List.length
           (filter (fun ir => String.eqb (Fueltype (snd ir)) "Bioenergy"
                              && String.eqb (Country (snd ir)) "DE")
                   (kept ++ secondary))
         = 1.
Proof.
  assert (Hc : In "DE" ["DE"]) by (now left).
  assert (Hs : exists s, In s opsd_biomass /\ Fueltype (snd s) = "Bioenergy"
                         /\ Country (snd s) = "DE").
  { eexists. split; [now left|]. now split. }
  split; [exact Hc|]. split; [exact Hs|].
  destruct (correct_bioenergy_supersedes bio_primary opsd_biomass ["DE"])
    as [kept [secondary [H1 [_ [_ H4]]]]].
  exists kept, secondary. split; [exact H1|].
  rewrite (H4 "DE" Hc Hs). reflexivity.
Defined.

(** ** The renaming pass: when two names clash *)

Lemma has_space_append (a b : string) :
  has_space (a ++ b) = has_space a || has_space b.
Proof.
  induction a as [|c a IH]; simpl; [reflexivity|].
  now rewrite IH, orb_assoc.
Qed.

Lemma has_space_suffixed (a b : string) : has_space ((a ++ " ") ++ b) = true.
Proof.
  rewrite !has_space_append. simpl. now rewrite orb_true_r.
Qed.

Lemma numeral_no_space (d : Decimal.uint) :
  has_space (NilEmpty.string_of_uint d) = false.
Proof. induction d; simpl; auto. Qed.

Lemma str_no_space (k : nat) : has_space (str k) = false.
Proof. apply numeral_no_space. Qed.

(** A name is cut in one way only at the space before a space-free suffix. *)
Lemma suffixed_injective (a b s u : string) :
  has_space s = false -> has_space u = false ->
  ((a ++ " ") ++ s = (b ++ " ") ++ u)%string -> a = b /\ s = u.
Proof.
  intros Hs Hu. revert b. induction a as [|c a IH]; intros [|d b] H; simpl in H.
  - injection H as H. now split.
  - injection H as _ H. rewrite H, has_space_suffixed in Hs. discriminate Hs.
  - injection H as _ H. rewrite <- H, has_space_suffixed in Hu. discriminate Hu.
  - injection H as -> H. destruct (IH b H) as [-> ->]. now split.
Qed.

Lemma clash_characterised (ppl : DataFrame) (i j : nat) (ia ib : Z)
    (a b a' b' : Row) :
  i < j ->
  nth_error ppl i = Some (ia, a) -> nth_error ppl j = Some (ib, b) ->
  key_of a = key_of b ->
  nth_error (dedup_names ppl) i = Some (ia, a') ->
  nth_error (dedup_names ppl) j = Some (ib, b') ->
  (Name a' = Name b'
   <-> occurrence (rows ppl) i a = 1
       /\ Name a = ((Name b ++ " ") ++ str (occurrence (rows ppl) j b))%string).
Proof.
  intros Hlt Hi Hj Hk Hi' Hj'.
  rewrite dedup_names_traversal in Hi', Hj'.
  rewrite (dedup_from_nth ppl [] i ia a Hi) in Hi'.
  rewrite (dedup_from_nth ppl [] j ib b Hj) in Hj'.
  cbn [filter List.length Nat.add] in Hi', Hj'.
  injection Hi' as <-. injection Hj' as <-.
  assert (Ha : nth_error (rows ppl) i = Some a)
    by (unfold rows; now rewrite nth_error_map, Hi).
  assert (Hb : nth_error (rows ppl) j = Some b)
    by (unfold rows; now rewrite nth_error_map, Hj).
  pose proof (occurrence_increases (rows ppl) i j a b Hlt Ha Hb Hk) as Hinc.
  rewrite <- (occurrence_same_key (rows ppl) i a b Hk) in Hinc.
  destruct (occurrence_bounds (rows ppl) i a Ha) as [Hlo _].
  set (ka := occurrence (rows ppl) i a) in *.
  set (kb := occurrence (rows ppl) j b) in *.
  unfold rename. simpl.
  destruct (Nat.eqb_spec kb 1) as [E|_]; [lia|].
  destruct (Nat.eqb_spec ka 1) as [E1|Hka].
  - tauto.
  - split.
    + intros H. apply suffixed_injective in H; try apply str_no_space.
      destruct H as [_ H]. apply str_injective in H. lia.
    + intros [H _]. contradiction.
Qed.

(** Two rows of one (bus, Fueltype) group come out of the renaming pass with
    the same Name in one case only: the earlier row is the first of the group
    and its Name already is the Name of the later row followed by a space and
    the position of the later row in the group. *)
Theorem dedup_names_clash_iff (ppl : DataFrame) (i j : nat) (ia ib : Z)
    (a b a' b' : Row) :
  Forall has_bus (rows ppl) ->
  i < j ->
  nth_error ppl i = Some (ia, a) -> nth_error ppl j = Some (ib, b) ->
  key_of a = key_of b ->
  nth_error (dedup_names ppl) i = Some (ia, a') ->
  nth_error (dedup_names ppl) j = Some (ib, b') ->
  (Name a' = Name b'
   <-> occurrence (rows ppl) i a = 1
       /\ Name a = ((Name b ++ " ") ++ str (occurrence (rows ppl) j b))%string).
Proof. intros _. apply clash_characterised. Qed.

Lemma dedup_names_clash_iff_witness :
  Forall has_bus (rows named_like_a_suffix)
  /\ 0 < 1
  /\ occurrence (rows named_like_a_suffix) 0
       (plant "Plant A 2" "Coal" None "DE" (Some "DE0 1")) = 1
  /\ column Name (dedup_names named_like_a_suffix) = ["Plant A 2"; "Plant A 2"].
Proof.
  assert (Hb : Forall has_bus (rows named_like_a_suffix)).
  { repeat constructor; discriminate. }
  split; [exact Hb|]. split; [lia|].
  split; [|reflexivity].
  apply (dedup_names_clash_iff named_like_a_suffix 0 1 0%Z 1%Z
           (plant "Plant A 2" "Coal" None "DE" (Some "DE0 1"))
           (plant "Plant A" "Coal" None "DE" (Some "DE0 1"))
           (plant "Plant A 2" "Coal" None "DE" (Some "DE0 1"))
           (plant "Plant A 2" "Coal" None "DE" (Some "DE0 1"))
           Hb (Nat.lt_0_succ 0) eq_refl eq_refl eq_refl eq_refl eq_refl).
  reflexivity.
Defined.

(** When no Name of the table already ends in a space and a numeral, the
    renaming pass does what it is there for: two different rows of one
    (bus, Fueltype) group never leave it with the same Name. *)
Theorem dedup_names_unique_without_suffixed_names (ppl : DataFrame) (i j : nat)
    (ia ib : Z) (a b a' b' : Row) :
  Forall has_bus (rows ppl) ->
  (forall r n k, In r (rows ppl) -> Name r <> ((n ++ " ") ++ str k)%string) ->
  i <> j ->
  nth_error ppl i = Some (ia, a) -> nth_error ppl j = Some (ib, b) ->
  key_of a = key_of b ->
  nth_error (dedup_names ppl) i = Some (ia, a') ->
  nth_error (dedup_names ppl) j = Some (ib, b') ->
  Name a' <> Name b'.
Proof.
  intros _ Hplain Hne Hi Hj Hk Hi' Hj' Heq.
  assert (Ha : In a (rows ppl)).
  { apply (nth_error_In _ i). unfold rows. now rewrite nth_error_map, Hi. }
  assert (Hb : In b (rows ppl)).
  { apply (nth_error_In _ j). unfold rows. now rewrite nth_error_map, Hj. }
  destruct (Nat.lt_total i j) as [Hlt|[E|Hlt]]; [|contradiction|].
  - apply (clash_characterised ppl i j ia ib a b a' b' Hlt Hi Hj Hk Hi' Hj') in Heq.
    destruct Heq as [_ Heq]. now apply (Hplain a _ _ Ha) in Heq.
  - symmetry in Heq, Hk.
    apply (clash_characterised ppl j i ib ia b a b' a' Hlt Hj Hi Hk Hj' Hi') in Heq.
    destruct Heq as [_ Heq]. now apply (Hplain b _ _ Hb) in Heq.
Qed.

Lemma plant_a_not_suffixed (n : string) (k : nat) :
  "Plant A" <> ((n ++ " ") ++ str k)%string.
Proof.
  intros H.
  assert (E : "A" = str k).
  { apply (suffixed_injective "Plant" n "A" (str k));
      [reflexivity | apply str_no_space | exact H]. }
  apply (f_equal NilEmpty.uint_of_string) in E.
  unfold str in E. rewrite NilEmpty.usu in E. discriminate E.
Qed.

Lemma dedup_names_unique_without_suffixed_names_witness :
  Forall has_bus (rows three_at_one_bus)
  /\ (forall r n k, In r (rows three_at_one_bus) ->
                    Name r <> ((n ++ " ") ++ str k)%string)
  /\ 0 <> 2
  /\ "Plant A" <> "Plant A 3".
Proof.
  assert (Hb : Forall has_bus (rows three_at_one_bus)).
  { repeat constructor; discriminate. }
  assert (Hp : forall r n k, In r (rows three_at_one_bus) ->
                             Name r <> ((n ++ " ") ++ str k)%string).
  { intros r n k [<-|[<-|[<-|[]]]]; apply plant_a_not_suffixed. }
  split; [exact Hb|]. split; [exact Hp|]. split; [discriminate|].
  apply (dedup_names_unique_without_suffixed_names three_at_one_bus 0 2 0%Z 2%Z
           (plant "Plant A" "Coal" None "DE" (Some "DE0 1"))
           (plant "Plant A" "Coal" None "DE" (Some "DE0 1"))
           (plant "Plant A" "Coal" None "DE" (Some "DE0 1"))
           (plant "Plant A 3" "Coal" None "DE" (Some "DE0 1"))
           Hb Hp);
    try reflexivity. discriminate.
Defined.

Lemma dedup_from_fresh_keys (df : DataFrame) :
  forall seen : list group_key,
    NoDup (column key_of df) ->
    (forall k, In k (column key_of df) -> ~ In k seen) ->
    dedup_from seen df = df.
Proof.
  induction df as [|[i r] df IH]; intros seen Hnd Hfresh; [reflexivity|].
  unfold column in *. cbn [map snd] in Hnd, Hfresh.
  apply NoDup_cons_iff in Hnd. destruct Hnd as [Hnotin Hnd].
  cbn [dedup_from]. rewrite (filter_none (key_eqb (key_of r)) seen).
  - cbn [List.length Nat.add]. rewrite rename_first. f_equal.
    apply IH; [exact Hnd|].
    intros k Hk [<-|Hs]; [contradiction|].
    apply (Hfresh k); [now right | exact Hs].
  - intros k Hk. apply not_true_iff_false. intros E.
    apply key_eqb_eq in E. subst k.
    apply (Hfresh (key_of r)); [now left | exact Hk].
Qed.

(** When no two rows share bus and Fueltype, the renaming pass returns the
    table as it is. *)
Theorem dedup_names_distinct_keys (ppl : DataFrame) :
  Forall has_bus (rows ppl) ->
  NoDup (column key_of ppl) ->
  dedup_names ppl = ppl.
Proof.
  intros _ Hnd. rewrite dedup_names_traversal.
  apply dedup_from_fresh_keys; [exact Hnd|]. intros k _ [].
Qed.

Lemma dedup_names_distinct_keys_witness :
  Forall has_bus (rows two_fuels)
  /\ NoDup (column key_of two_fuels)
  /\ dedup_names two_fuels = two_fuels.
Proof.
  assert (Hb : Forall has_bus (rows two_fuels)).
  { repeat constructor; discriminate. }
  assert (Hn : NoDup (column key_of two_fuels)).
  { repeat constructor.
    - intros [H|[]]. discriminate H.
    - intros []. }
  split; [exact Hb|]. split; [exact Hn|].
  apply (dedup_names_distinct_keys two_fuels Hb Hn).
Defined.

(** ** The warning about countries without plants *)

(** The warning about countries without plants names exactly the configured
    countries that do not occur in the Country column, each once; it is
    logged once, and not at all when every configured country occurs. *)
Theorem warn_countries_without_ppl_names (countries : list string)
    (ppl : DataFrame) (t : Trace) :
  exists missing,
    NoDup missing
    /\ (forall c, In c missing <-> In c countries /\ ~ In c (column Country ppl))
    /\ warn_countries_without_ppl countries ppl t
       = (Ok tt,
          match missing with
          | [] => t
          | _ => t ++ [Warning ("No powerplants known in: "
                                ++ String.concat ", " missing)]
          end).
Proof.
  exists (filter (fun c => negb (isin c (unique (column Country ppl))))
                 (unique countries)).
  split; [|split].
  - apply NoDup_filter. apply NoDup_unique_from.
  - intros c. rewrite filter_In, In_unique, negb_true_iff, <- not_true_iff_false.
    rewrite isin_In, In_unique. tauto.
  - unfold warn_countries_without_ppl.
    destruct (filter _ (unique countries)); reflexivity.
Qed.

(** ** The main block as a whole *)

Lemma main_stages
    (fs : string -> option DataFrame) (query_pred : string -> option (Row -> bool))
    (map_country_bus : DataFrame -> list Bus -> DataFrame)
    (powerplants opsd : DataFrame) (buses : list Bus) (countries : list string)
    (powerplants_filter : PyVal) (custom_powerplants_file : string)
    (custom_powerplants : PyVal) (everywhere_powerplants : list string) :
  main fs query_pred map_country_bus powerplants opsd buses countries
    powerplants_filter custom_powerplants_file custom_powerplants
    everywhere_powerplants
  = (ppl <- lift (correct_bioenergy
                    (canonicalize
                       (query_rows (fun r => negb (isin (Fueltype r) ["Solar"; "Wind"])
                                             && isin (Country r) countries)
                                   powerplants))
                    opsd countries) ;;
     ppl <- match powerplants_filter with
            | PyStr ppl_query => lift (query query_pred ppl_query ppl)
            | _ => ret ppl
            end ;;
     after_filter fs query_pred map_country_bus buses countries
       custom_powerplants_file custom_powerplants everywhere_powerplants ppl).
Proof. reflexivity. Qed.

Lemma NoDup_default_index (n : nat) : NoDup (default_index n).
Proof.
  unfold default_index. apply Injective_map_NoDup.
  - intros a b. apply Nat2Z.inj.
  - apply seq_NoDup.
Qed.

Lemma warn_countries_without_ppl_cases (countries : list string) (ppl : DataFrame)
    (t : Trace) :
  exists warns,
    warn_countries_without_ppl countries ppl t = (Ok tt, t ++ warns)
    /\ Forall is_warning warns /\ List.length warns <= 1.
Proof.
  unfold warn_countries_without_ppl.
  destruct (filter _ (unique countries)).
  - exists []. rewrite app_nil_r. repeat split; [constructor | simpl; lia].
  - eexists [_]. split; [reflexivity|].
    split; [repeat constructor | simpl; lia].
Qed.

Lemma finalize_cases (ppl : DataFrame) (t : Trace) :
  exists out warns,
    finalize ppl t = (Ok out, t ++ warns)
    /\ Forall is_warning warns /\ List.length warns <= 1
    /\ Forall has_bus (rows out).
Proof.
  exists (dedup_names (filter (fun ir => has_busb (snd ir)) ppl)).
  rewrite finalize_unfold, drop_null_bus_unfold. cbn [snd].
  destruct (Nat.eqb _ 0).
  - exists []. rewrite app_nil_r.
    repeat split; [constructor | simpl; lia | apply finalize_has_bus].
  - eexists [_]. split; [reflexivity|].
    repeat split; [repeat constructor | simpl; lia | apply finalize_has_bus].
Qed.

Lemma add_everywhere_powerplants_ok (ppl : DataFrame) (substations : list Bus)
    (everywhere_powerplants : list string) :
  exists df, add_everywhere_powerplants ppl substations everywhere_powerplants = Ok df.
Proof.
  unfold add_everywhere_powerplants. rewrite concat_ignore_index. now eexists.
Qed.

Lemma after_custom_cases (map_country_bus : DataFrame -> list Bus -> DataFrame)
    (buses : list Bus) (countries everywhere_powerplants : list string)
    (ppl : DataFrame) (t : Trace) :
  exists out warns,
    after_custom map_country_bus buses countries everywhere_powerplants ppl t
    = (Ok out, t ++ warns)
    /\ Forall is_warning warns /\ List.length warns <= 2
    /\ index out = default_index (List.length out)
    /\ Forall has_bus (rows out).
Proof.
  unfold after_custom.
  destruct (warn_countries_without_ppl_cases countries ppl t)
    as [w1 [H1 [Hw1 Hl1]]].
  destruct (add_everywhere_powerplants_ok ppl (substations_of buses)
              everywhere_powerplants) as [p4 H4].
  destruct (finalize_cases
              (map_country_bus (dropna_lat_lon p4) (substations_of buses))
              (t ++ w1)) as [p5 [w2 [H5 [Hw2 [Hl2 Hbus]]]]].
  exists (reset_index p5), (w1 ++ w2).
  unfold bind at 1. rewrite H1. cbv beta iota.
  unfold bind at 1. unfold lift at 1. rewrite H4. cbv beta iota zeta.
  unfold bind. rewrite H5. cbv beta iota. unfold ret.
  rewrite app_assoc. split; [reflexivity|].
  split; [now apply Forall_app|].
  split; [rewrite length_app; lia|].
  split.
  - rewrite index_reset_index. f_equal. unfold reset_index.
    rewrite length_combine, length_default_index.
    unfold rows. rewrite length_map. lia.
  - now rewrite rows_reset_index.
Qed.

Lemma after_filter_cases
    (fs : string -> option DataFrame) (query_pred : string -> option (Row -> bool))
    (map_country_bus : DataFrame -> list Bus -> DataFrame)
    (buses : list Bus) (countries : list string)
    (path : string) (custom_powerplants : PyVal)
    (everywhere_powerplants : list string) (ppl : DataFrame) (t : Trace) :
  exists r reads warns,
    after_filter fs query_pred map_country_bus buses countries path
      custom_powerplants everywhere_powerplants ppl t
    = (r, t ++ reads ++ warns)
    /\ (reads = [] /\ truthy custom_powerplants = false
        \/ reads = [ReadCsv path] /\ truthy custom_powerplants = true)
    /\ Forall is_warning warns /\ List.length warns <= 2
    /\ match r with
       | Ok out => index out = default_index (List.length out)
                   /\ Forall has_bus (rows out)
       | Raise (FileNotFoundError p) =>
           p = path /\ fs path = None /\ truthy custom_powerplants = true
           /\ warns = []
       | Raise (QueryError expr) =>
           custom_powerplants = PyStr expr /\ query_pred expr = None
           /\ fs path <> None /\ warns = []
       | Raise (ValueError _) => False
       end.
Proof.
  unfold after_filter, bind.
  destruct (truthy custom_powerplants) eqn:Hq.
  - rewrite (add_custom_powerplants_truthy fs query_pred ppl path
               custom_powerplants t Hq).
    assert (Hgo : forall p3 : DataFrame,
               exists r reads warns,
                 after_custom map_country_bus buses countries
                   everywhere_powerplants p3 (t ++ [ReadCsv path])
                 = (r, t ++ reads ++ warns)
                 /\ (reads = [] /\ true = false
                     \/ reads = [ReadCsv path] /\ true = true)
                 /\ Forall is_warning warns /\ List.length warns <= 2
                 /\ match r with
                    | Ok out => index out = default_index (List.length out)
                                /\ Forall has_bus (rows out)
                    | Raise (FileNotFoundError p) =>
                        p = path /\ fs path = None /\ true = true /\ warns = []
                    | Raise (QueryError expr) =>
                        custom_powerplants = PyStr expr /\ query_pred expr = None
                        /\ fs path <> None /\ warns = []
                    | Raise (ValueError _) => False
                    end).
    { intros p3.
      destruct (after_custom_cases map_country_bus buses countries
                  everywhere_powerplants p3 (t ++ [ReadCsv path]))
        as [out [warns [H [Hw [Hl [Hidx Hbus]]]]]].
      exists (Ok out), [ReadCsv path], warns.
      rewrite H, <- app_assoc. repeat split; auto. }
    destruct (fs path) as [add|] eqn:Hfs.
    + destruct custom_powerplants as [|b|z|expr]; try apply Hgo.
      destruct (query_pred expr) as [p|] eqn:Hp; [apply Hgo|].
      exists (Raise (QueryError expr)), [ReadCsv path], [].
      rewrite app_nil_r. repeat split; auto; try constructor. discriminate.
    + exists (Raise (FileNotFoundError path)), [ReadCsv path], [].
      rewrite app_nil_r. repeat split; auto; constructor.
  - unfold add_custom_powerplants. rewrite Hq. cbn [negb]. unfold ret at 1.
    destruct (after_custom_cases map_country_bus buses countries
                everywhere_powerplants ppl t)
      as [out [warns [H [Hw [Hl [Hidx Hbus]]]]]].
    exists (Ok out), [], warns. rewrite H. repeat split; auto.
Qed.

Lemma main_cases
    (fs : string -> option DataFrame) (query_pred : string -> option (Row -> bool))
    (map_country_bus : DataFrame -> list Bus -> DataFrame)
    (powerplants opsd : DataFrame) (buses : list Bus) (countries : list string)
    (powerplants_filter : PyVal) (path : string)
    (custom_powerplants : PyVal) (everywhere_powerplants : list string)
    (t : Trace) :
  exists r reads warns,
    main fs query_pred map_country_bus powerplants opsd buses countries
      powerplants_filter path custom_powerplants everywhere_powerplants t
    = (r, t ++ reads ++ warns)
    /\ (reads = [] \/ reads = [ReadCsv path] /\ truthy custom_powerplants = true)
    /\ Forall is_warning warns /\ List.length warns <= 2
    /\ match r with
       | Ok out => index out = default_index (List.length out)
                   /\ Forall has_bus (rows out)
       | Raise (FileNotFoundError p) =>
           p = path /\ fs path = None /\ truthy custom_powerplants = true
       | Raise (QueryError expr) =>
           query_pred expr = None
           /\ (powerplants_filter = PyStr expr /\ reads = [] /\ warns = []
               \/ custom_powerplants = PyStr expr /\ fs path <> None)
       | Raise (ValueError _) => False
       end.
Proof.
  rewrite main_stages.
  unfold bind at 1. unfold lift at 1. rewrite correct_bioenergy_unfold.
  cbv beta iota zeta.
  assert (Hgo : forall p2 : DataFrame,
             exists r reads warns,
               after_filter fs query_pred map_country_bus buses countries path
                 custom_powerplants everywhere_powerplants p2 t
               = (r, t ++ reads ++ warns)
               /\ (reads = []
                   \/ reads = [ReadCsv path] /\ truthy custom_powerplants = true)
               /\ Forall is_warning warns /\ List.length warns <= 2
               /\ match r with
                  | Ok out => index out = default_index (List.length out)
                              /\ Forall has_bus (rows out)
                  | Raise (FileNotFoundError p) =>
                      p = path /\ fs path = None
                      /\ truthy custom_powerplants = true
                  | Raise (QueryError expr) =>
                      query_pred expr = None
                      /\ (powerplants_filter = PyStr expr /\ reads = []
                          /\ warns = []
                          \/ custom_powerplants = PyStr expr /\ fs path <> None)
                  | Raise (ValueError _) => False
                  end).
  { intros p2.
    destruct (after_filter_cases fs query_pred map_country_bus buses countries
                path custom_powerplants everywhere_powerplants p2 t)
      as [r [reads [warns [H [Hr [Hw [Hl Hres]]]]]]].
    exists r, reads, warns. split; [exact H|].
    split; [destruct Hr as [[Hr _]|Hr]; [now left | now right]|].
    split; [exact Hw|]. split; [exact Hl|].
    destruct r as [out|[p|expr|msg]]; try exact Hres.
    - destruct Hres as [H1 [H2 [H3 _]]]. now repeat split.
    - destruct Hres as [H1 [H2 [H3 _]]]. split; [exact H2|]. right. now split. }
  destruct powerplants_filter as [|b|z|expr]; unfold bind, ret;
    try apply Hgo.
  unfold lift, query. destruct (query_pred expr) as [p|] eqn:Hp; [apply Hgo|].
  exists (Raise (QueryError expr)), [], []. rewrite !app_nil_r.
  split; [reflexivity|]. split; [now left|]. split; [constructor|].
  split; [simpl; lia|]. split; [exact Hp|]. left. now repeat split.
Qed.

(** Whenever the main block returns a table, its rows are labelled 0..n-1, so
    no label occurs twice in the written file, whatever labels the inputs
    carried. *)
Theorem main_output_index
    (fs : string -> option DataFrame) (query_pred : string -> option (Row -> bool))
    (map_country_bus : DataFrame -> list Bus -> DataFrame)
    (powerplants opsd : DataFrame) (buses : list Bus) (countries : list string)
    (powerplants_filter : PyVal) (custom_powerplants_file : string)
    (custom_powerplants : PyVal) (everywhere_powerplants : list string)
    (t : Trace) (out : DataFrame) :
  fst (main fs query_pred map_country_bus powerplants opsd buses countries
         powerplants_filter custom_powerplants_file custom_powerplants
         everywhere_powerplants t) = Ok out ->
  index out = default_index (List.length out) /\ NoDup (index out).
Proof.
  intros H.
  destruct (main_cases fs query_pred map_country_bus powerplants opsd buses
              countries powerplants_filter custom_powerplants_file
              custom_powerplants everywhere_powerplants t)
    as [r [reads [warns [E [_ [_ [_ Hres]]]]]]].
  rewrite E in H. cbn [fst] in H. subst r. destruct Hres as [Hidx _].
  split; [exact Hidx|]. rewrite Hidx. apply NoDup_default_index.
Qed.

Lemma main_output_index_witness :
  exists out,
    fst (main no_files no_queries nearest_bus gas_unlisted [] one_substation
           ["DE"] (PyBool false) "data/custom_powerplants.csv" (PyBool false)
           ["Natural Gas"; "OCGT"] []) = Ok out
    /\ index out = default_index (List.length out) /\ NoDup (index out).
Proof.
  eexists. split; [vm_compute; reflexivity|].
  apply (main_output_index no_files no_queries nearest_bus gas_unlisted []
           one_substation ["DE"] (PyBool false) "data/custom_powerplants.csv"
           (PyBool false) ["Natural Gas"; "OCGT"] []).
  vm_compute. reflexivity.
Defined.

(** A powerplants filter that pandas rejects stops the run at once: the error
    is raised before the custom file is read and before anything is logged. *)
Theorem main_rejected_filter
    (fs : string -> option DataFrame) (query_pred : string -> option (Row -> bool))
    (map_country_bus : DataFrame -> list Bus -> DataFrame)
    (powerplants opsd : DataFrame) (buses : list Bus) (countries : list string)
    (ppl_query : string) (custom_powerplants_file : string)
    (custom_powerplants : PyVal) (everywhere_powerplants : list string)
    (t : Trace) :
  query_pred ppl_query = None ->
  main fs query_pred map_country_bus powerplants opsd buses countries
    (PyStr ppl_query) custom_powerplants_file custom_powerplants
    everywhere_powerplants t
  = (Raise (QueryError ppl_query), t).
Proof.
  intros H. rewrite main_stages.
  unfold bind at 1. unfold lift at 1. rewrite correct_bioenergy_unfold.
  cbv beta iota zeta. unfold bind, lift, query. now rewrite H.
Qed.

Lemma main_rejected_filter_witness :
  no_queries "Country not in" = None
  /\ main custom_two_countries no_queries nearest_bus gas_unlisted [] one_substation
       ["DE"] (PyStr "Country not in") "data/custom_powerplants.csv" (PyBool true)
       ["Coal"] []
     = (Raise (QueryError "Country not in"), []).
Proof.
  split; [reflexivity|].
  apply (main_rejected_filter custom_two_countries no_queries nearest_bus
           gas_unlisted [] one_substation ["DE"] "Country not in"
           "data/custom_powerplants.csv" (PyBool true) ["Coal"] []).
  reflexivity.
Defined.
